(** * trade-ia: signal generation and risk validation of the ai-engine service

    A shallow embedding of

    - [app/utils/deepseek_client.py]  (class [DeepSeekClient]),
    - [app/models/signals.py]         (class [RiskParameters], [SignalValidation]),
    - [app/utils/risk_manager.py]     (class [RiskManager]),
    - [app/services/ia_engine.py]     (class [IAEngine])

    and the properties of the specification that concern them.

    Number model.  Python floats are read as exact numbers: reals in the
    prediction client, where the score goes through [np.tanh], and rationals
    in the risk manager and the engine, where the code only adds, multiplies,
    divides and compares, so that those functions compute.  Rounding is
    outside the model.  The one special value the code can meet on its own
    data, NaN out of a rolling window that is too short or out of a sparse
    indicator column, is kept where it can occur (type [pyfloat]). *)

From Stdlib Require Import Reals Lra Lia List String QArith Qabs ZArith Bool.
From stdpp Require Import base gmap strings.
Import ListNotations.

(* ===================================================================== *)
(** * Python-level conventions                                            *)
(* ===================================================================== *)

Module Py.

(** The exceptions the modelled code can raise. *)
Inductive exn : Type :=
| IndexError
| KeyError
| AttributeError
| TypeError
| ValueError.

(** A computation that returns or raises. *)
Inductive result (A : Type) : Type :=
| Ok (a : A)
| Raise (e : exn).
Arguments Ok {A} a.
Arguments Raise {A} e.

Definition bind {A B : Type} (m : result A) (k : A -> result B) : result B :=
  match m with
  | Ok a => k a
  | Raise e => Raise e
  end.

(** [try: body / except Exception: handler]. *)
Definition try_except {A : Type} (body : result A) (handler : exn -> A) : A :=
  match body with
  | Ok a => a
  | Raise e => handler e
  end.

(** [l[-1]] *)
Fixpoint last_item {A : Type} (l : list A) : result A :=
  match l with
  | [] => Raise IndexError
  | [x] => Ok x
  | _ :: l' => last_item l'
  end.

(** [l[i]] for a non-negative index. *)
Definition item {A : Type} (l : list A) (i : nat) : result A :=
  match nth_error l i with
  | Some x => Ok x
  | None => Raise IndexError
  end.

(** [l[-n:]] *)
Definition last_n {A : Type} (n : nat) (l : list A) : list A :=
  skipn (length l - n) l.

(** [sub in s] on strings. *)
Fixpoint str_contains (sub s : string) : bool :=
  String.prefix sub s ||
  match s with
  | EmptyString => false
  | String _ s' => str_contains sub s'
  end.

(** [x in l] on lists of strings. *)
Definition str_in (x : string) (l : list string) : bool :=
  existsb (String.eqb x) l.

End Py.

Declare Scope py_scope.
Delimit Scope py_scope with py.
Notation "x <- m ;; k" := (Py.bind m (fun x => k))
  (at level 100, m at next level, right associativity) : py_scope.
Notation "'_' <- m ;; k" := (Py.bind m (fun _ => k))
  (at level 100, m at next level, right associativity) : py_scope.

(* ===================================================================== *)
(** * app/utils/deepseek_client.py                                        *)
(* ===================================================================== *)

Module DeepSeekClient.
Import Py.
Local Open Scope R_scope.
Local Open Scope py_scope.

(** ** Data *)

(** The five classifications [_run_prediction] can return. *)
Inductive SignalLabel : Type :=
| STRONG_BUY
| BUY
| HOLD
| SELL
| STRONG_SELL.

(** The string stored under ['signal_type']. *)
Definition label_string (l : SignalLabel) : string :=
  match l with
  | STRONG_BUY => "STRONG_BUY"
  | BUY => "BUY"
  | HOLD => "HOLD"
  | SELL => "SELL"
  | STRONG_SELL => "STRONG_SELL"
  end.

(** [self.confidence_threshold] and [self.signal_thresholds]. *)
Record Config : Type := {
  confidence_threshold : R;
  th_strong_buy : R;
  th_buy : R;
  th_sell : R;
  th_strong_sell : R
}.

(** [_get_default_config()["thresholds"]], also the defaults of the
    [.get] calls in [__init__]. *)
Definition default_config : Config := {|
  confidence_threshold := 0.7;
  th_strong_buy := 0.85;
  th_buy := 0.65;
  th_sell := -0.65;
  th_strong_sell := -0.85
|}.

(** A normalised feature array: rows are bars, columns are features
    (column 3 is [close_pct], column 5 is [rsi]). *)
Definition matrix : Type := list (list R).

(** The market context dictionary, as far as its numeric entries go. *)
Definition MarketContext : Type := list (string * R).

Fixpoint dict_get (d : MarketContext) (k : string) (default : R) : R :=
  match d with
  | [] => default
  | (k', v) :: d' => if String.eqb k k' then v else dict_get d' k default
  end.

(** [prediction['features']]: empty on the fallback path. *)
Record FeatureSummary : Type := {
  f_rsi : R;
  f_trend : R;
  f_volatility : R
}.

Record Prediction : Type := {
  p_score : R;
  p_confidence : R;
  p_signal_type : SignalLabel;
  p_timeframe : string;
  p_features : option FeatureSummary
}.

(** A float that may be NaN. *)
Inductive pyfloat : Type :=
| Fin (r : R)
| NaN.

Definition flift1 (f : R -> R) (a : pyfloat) : pyfloat :=
  match a with
  | Fin x => Fin (f x)
  | NaN => NaN
  end.

Definition flift2 (f : R -> R -> R) (a b : pyfloat) : pyfloat :=
  match a, b with
  | Fin x, Fin y => Fin (f x y)
  | _, _ => NaN
  end.

(** [a > b]: false as soon as one side is NaN. *)
Definition fgt (a b : pyfloat) : bool :=
  match a, b with
  | Fin x, Fin y => if Rgt_dec x y then true else false
  | _, _ => false
  end.

(** The columns of a price frame that [_create_signal] reads.  The
    ['atr'] column is present only when indicators were merged in, and
    then holds NaN on the bars without an indicator row. *)
Record DataFrame : Type := {
  close : list R;
  atr : option (list pyfloat)
}.

(** [len(data)] *)
Definition df_len (data : DataFrame) : nat := length (close data).

(** The dictionary built by [_create_signal].  The ['timestamp'] and
    ['reasoning'] entries (wall clock, formatted text) are left out. *)
Record Signal : Type := {
  signal_type : SignalLabel;
  confidence : R;
  score : R;
  entry_price : R;
  stop_loss : pyfloat;
  take_profit : pyfloat;
  risk_reward_ratio : pyfloat;
  timeframe : string;
  technical_indicators : option FeatureSummary
}.

(** ** numpy and pandas reductions *)

Definition sum (xs : list R) : R := fold_right Rplus 0 xs.

(** [np.mean] *)
Definition mean (xs : list R) : R := sum xs / INR (length xs).

(** [np.std]: population standard deviation. *)
Definition std (xs : list R) : R :=
  sqrt (mean (map (fun x => (x - mean xs) * (x - mean xs)) xs)).

(** [features[-20:, 3]] *)
Fixpoint column (j : nat) (rows : matrix) : result (list R) :=
  match rows with
  | [] => Ok []
  | r :: rows' =>
      x <- item r j ;;
      xs <- column j rows' ;;
      Ok (x :: xs)
  end.

(** [series.rolling(w).std().iloc[-1]]: the sample standard deviation
    (ddof = 1) of the last [w] values, NaN when there are fewer than
    [w]; [IndexError] on an empty series. *)
Definition rolling_std_last (w : nat) (xs : list R) : result pyfloat :=
  _ <- last_item xs ;;
  if (length xs <? w)%nat then Ok NaN
  else
    let win := last_n w xs in
    Ok (Fin (sqrt (sum (map (fun x => (x - mean win) * (x - mean win)) win)
                   / (INR w - 1)))).

(** ** [_run_prediction] *)

(** Lines 272-275. *)
Definition trend_term (recent_trend : R) : R :=
  if Rgt_dec recent_trend 0.001 then 0.3
  else if Rlt_dec recent_trend (-0.001) then - 0.3
  else 0.

(** Lines 278-281. *)
Definition rsi_term (rsi : R) : R :=
  if Rlt_dec rsi 30 then 0.4
  else if Rgt_dec rsi 70 then - 0.4
  else 0.

(** Lines 284-286: [if market_context:] holds for a non-empty dict. *)
Definition market_adjust (market_context : option MarketContext) (s : R) : R :=
  match market_context with
  | Some ((_ :: _) as d) =>
      if Rgt_dec (dict_get d "vix_level" 20) 30 then s * 0.7 else s
  | _ => s
  end.

(** Lines 295-304. *)
Definition classify (cfg : Config) (s : R) : SignalLabel :=
  if Rgt_dec s (th_strong_buy cfg) then STRONG_BUY
  else if Rgt_dec s (th_buy cfg) then BUY
  else if Rlt_dec s (th_strong_sell cfg) then STRONG_SELL
  else if Rlt_dec s (th_sell cfg) then SELL
  else HOLD.

(** What the [try] block reads from the array: the mean and spread of
    the last 20 [close_pct] values and the RSI of the last bar. *)
Definition read_features (features : matrix) : result FeatureSummary :=
  _ <- last_item features ;;
  closes <- column 3 (last_n 20 features) ;;
  first <- item features 0 ;;
  rsi <- (if (5 <? length first)%nat
          then (row <- last_item features ;; x <- item row 5 ;; Ok (x * 100))
          else Ok 50) ;;
  Ok {| f_rsi := rsi; f_trend := mean closes; f_volatility := std closes |}.

(** The score before compression. *)
Definition raw_score (market_context : option MarketContext) (f : FeatureSummary) : R :=
  market_adjust market_context (0 + trend_term (f_trend f) + rsi_term (f_rsi f)).

Definition _run_prediction (cfg : Config) (features : matrix) (tf : string)
    (market_context : option MarketContext) : Prediction :=
  try_except
    (f <- read_features features ;;
     let s := tanh (raw_score market_context f) in
     Ok {| p_score := s;
           p_confidence := Rabs s;
           p_signal_type := classify cfg s;
           p_timeframe := tf;
           p_features := Some f |})
    (fun _ =>
       {| p_score := 0;
          p_confidence := 0;
          p_signal_type := HOLD;
          p_timeframe := tf;
          p_features := None |}).

(** ** [_create_signal] *)

Definition is_bullish (l : SignalLabel) : bool :=
  match l with
  | BUY | STRONG_BUY => true
  | _ => false
  end.

(** [data.get('atr', data['close'].rolling(14).std()).iloc[-1]] *)
Definition latest_atr (data : DataFrame) : result pyfloat :=
  fallback <- rolling_std_last 14 (close data) ;;
  match atr data with
  | Some col => last_item col
  | None => Ok fallback
  end.

Definition _create_signal (prediction : Prediction) (data : DataFrame)
    (tf : string) : option Signal :=
  try_except
    (match p_signal_type prediction with
     | HOLD => Ok None
     | label =>
         latest_price <- last_item (close data) ;;
         a <- latest_atr data ;;
         let sl :=
           if is_bullish label
           then flift2 Rminus (Fin latest_price) (flift2 Rmult (Fin 2) a)
           else flift2 Rplus (Fin latest_price) (flift2 Rmult (Fin 2) a) in
         let tp :=
           if is_bullish label
           then flift2 Rplus (Fin latest_price) (flift2 Rmult (Fin 3) a)
           else flift2 Rminus (Fin latest_price) (flift2 Rmult (Fin 3) a) in
         let risk := flift1 Rabs (flift2 Rminus (Fin latest_price) sl) in
         let reward := flift1 Rabs (flift2 Rminus tp (Fin latest_price)) in
         Ok (Some {| signal_type := label;
                     confidence := p_confidence prediction;
                     score := p_score prediction;
                     entry_price := latest_price;
                     stop_loss := sl;
                     take_profit := tp;
                     risk_reward_ratio :=
                       if fgt risk (Fin 0) then flift2 Rdiv reward risk else Fin 0;
                     timeframe := tf;
                     technical_indicators := p_features prediction |})
     end)
    (fun _ => None).

(** ** [_aggregate_signals] *)

(** [max(l, key=...)] keeps the first element that reaches the maximum. *)
Fixpoint max_from {A : Type} (key : A -> R) (best : A) (l : list A) : A :=
  match l with
  | [] => best
  | x :: l' => max_from key (if Rgt_dec (key x) (key best) then x else best) l'
  end.

Definition max_by {A : Type} (key : A -> R) (l : list A) : option A :=
  match l with
  | [] => None
  | x :: l' => Some (max_from key x l')
  end.

Definition buy_signals (signals : list Signal) : list Signal :=
  List.filter (fun s => str_contains "BUY" (label_string (signal_type s))) signals.

Definition sell_signals (signals : list Signal) : list Signal :=
  List.filter (fun s => str_contains "SELL" (label_string (signal_type s))) signals.

Definition _aggregate_signals (signals : list Signal) : list Signal :=
  match signals with
  | [] => []
  | _ =>
      let best_buy :=
        match max_by confidence (buy_signals signals) with
        | Some b => [b]
        | None => []
        end in
      let best_sell :=
        match max_by confidence (sell_signals signals) with
        | Some s => [s]
        | None => []
        end in
      best_buy ++ best_sell
  end.

(** ** [predict_signals] *)

Section Predict.

(** [normalize_timeseries] is pandas column arithmetic on the frame; the
    loop below only needs its outcome, an array or an exception. *)
Variable normalize_timeseries : DataFrame -> result matrix.

(** The [for timeframe, data in timeseries_data.items()] loop, with
    [signals] as accumulator. *)
Fixpoint predict_loop (cfg : Config) (market_context : option MarketContext)
    (items : list (string * option DataFrame)) (signals : list Signal)
    : result (list Signal) :=
  match items with
  | [] => Ok signals
  | (tf, None) :: rest => predict_loop cfg market_context rest signals
  | (tf, Some data) :: rest =>
      if (df_len data <? 50)%nat
      then predict_loop cfg market_context rest signals
      else
        normalized_data <- normalize_timeseries data ;;
        let prediction := _run_prediction cfg normalized_data tf market_context in
        if Rge_dec (p_confidence prediction) (confidence_threshold cfg)
        then
          match _create_signal prediction data tf with
          | Some signal =>
              predict_loop cfg market_context rest (signals ++ [signal])
          | None => predict_loop cfg market_context rest signals
          end
        else predict_loop cfg market_context rest signals
  end.

Definition predict_signals (cfg : Config)
    (timeseries_data : list (string * option DataFrame))
    (market_context : option MarketContext) : list Signal :=
  try_except
    (signals <- predict_loop cfg market_context timeseries_data [] ;;
     Ok (_aggregate_signals signals))
    (fun _ => []).

End Predict.

End DeepSeekClient.

(* ===================================================================== *)
(** * app/models/signals.py                                               *)
(* ===================================================================== *)

Module Signals.
Import Py.
Local Open Scope Q_scope.
Local Open Scope py_scope.

Definition Qlt_bool (x y : Q) : bool := negb (Qle_bool y x).

(** [class RiskLevel(str, Enum)] *)
Inductive RiskLevel : Type :=
| LOW
| MEDIUM
| HIGH
| VERY_HIGH.

(** [class RiskParameters(BaseModel)]: the seven declared fields. *)
Record RiskParameters : Type := {
  max_position_size : Q;
  max_risk_per_trade : Q;
  stop_loss_percent : Q;
  take_profit_percent : Q;
  max_daily_trades : Z;
  max_open_positions : Z;
  max_correlation : Q
}.

(** The keyword arguments of a construction; [None] is an argument that
    is not passed, whose field takes its [Field] default. *)
Record RiskParametersArgs : Type := {
  arg_max_position_size : option Q;
  arg_max_risk_per_trade : option Q;
  arg_stop_loss_percent : option Q;
  arg_take_profit_percent : option Q;
  arg_max_daily_trades : option Z;
  arg_max_open_positions : option Z;
  arg_max_correlation : option Q
}.

Definition no_args : RiskParametersArgs := {|
  arg_max_position_size := None;
  arg_max_risk_per_trade := None;
  arg_stop_loss_percent := None;
  arg_take_profit_percent := None;
  arg_max_daily_trades := None;
  arg_max_open_positions := None;
  arg_max_correlation := None
|}.

(** Lines 111-115. *)
Definition validate_percentages (v : Q) : result Q :=
  if negb (Qlt_bool 0 v && Qle_bool v 0.1) then Raise ValueError else Ok v.

(** A field named in the [@validator] decorator: a passed value goes
    through the validator, the default does not. *)
Definition validated_field (arg : option Q) (default : Q) : result Q :=
  match arg with
  | Some v => validate_percentages v
  | None => Ok default
  end.

(** A field the decorator does not name. *)
Definition plain_field {A : Type} (arg : option A) (default : A) : A :=
  match arg with
  | Some v => v
  | None => default
  end.

(** [RiskParameters(...)] with keyword arguments. *)
Definition RiskParameters_init (kw : RiskParametersArgs) : result RiskParameters :=
  mps <- validated_field (arg_max_position_size kw) 0.02 ;;
  mrt <- validated_field (arg_max_risk_per_trade kw) 0.01 ;;
  Ok {| max_position_size := mps;
        max_risk_per_trade := mrt;
        stop_loss_percent := plain_field (arg_stop_loss_percent kw) 0.02;
        take_profit_percent := plain_field (arg_take_profit_percent kw) 0.05;
        max_daily_trades := plain_field (arg_max_daily_trades kw) 10%Z;
        max_open_positions := plain_field (arg_max_open_positions kw) 5%Z;
        max_correlation := plain_field (arg_max_correlation kw) 0.7 |}.

(** [RiskParameters()] *)
Definition default_risk_parameters : RiskParameters := {|
  max_position_size := 0.02;
  max_risk_per_trade := 0.01;
  stop_loss_percent := 0.02;
  take_profit_percent := 0.05;
  max_daily_trades := 10;
  max_open_positions := 5;
  max_correlation := 0.7
|}.

(** [risk_params.<name>]: an attribute that the model does not declare
    raises [AttributeError]. *)
Definition RiskParameters_getattr (rp : RiskParameters) (name : string) : result Q :=
  if String.eqb name "max_position_size" then Ok (max_position_size rp)
  else if String.eqb name "max_risk_per_trade" then Ok (max_risk_per_trade rp)
  else if String.eqb name "stop_loss_percent" then Ok (stop_loss_percent rp)
  else if String.eqb name "take_profit_percent" then Ok (take_profit_percent rp)
  else if String.eqb name "max_daily_trades" then Ok (inject_Z (max_daily_trades rp))
  else if String.eqb name "max_open_positions" then Ok (inject_Z (max_open_positions rp))
  else if String.eqb name "max_correlation" then Ok (max_correlation rp)
  else Raise AttributeError.

(** The messages appended to [validation_errors]; the arguments are the
    numbers the f-string formats. *)
Inductive ErrorMsg : Type :=
| PositionSizeExceeds (size maximum : Q)
| RiskPerTradeExceeds (risk maximum : Q)
| DailyTradeLimitReached (count maximum : Z)
| MaxOpenPositionsReached (count maximum : Z)
| HighCorrelation
| InsufficientLiquidity.

Inductive WarningMsg : Type :=
| OutsideMarketHours.

Inductive Recommendation : Type :=
| VeryStrongSignal
| WeakSignal
| LowRiskReward
| ExcellentRiskReward
| HighVolatility.

(** [class SignalValidation(BaseModel)] *)
Record SignalValidation : Type := {
  signal_id : string;
  is_valid : bool;
  validation_errors : list ErrorMsg;
  risk_check_passed : bool;
  position_size_check_passed : bool;
  correlation_check_passed : bool;
  market_hours_check_passed : bool;
  liquidity_check_passed : bool;
  adjusted_position_size : option Q;
  adjusted_stop_loss : option Q;
  adjusted_take_profit : option Q;
  warnings : list WarningMsg;
  recommendations : list Recommendation
}.

(** [signal_data['technical_indicators']] *)
Record TechnicalIndicators : Type := {
  ti_atr : option Q;
  ti_volatility : option Q
}.

(** The signal dictionary handed to the risk manager and the engine: one
    field per key that either of them reads or writes, [None] for a key
    that is absent. *)
Record SignalData : Type := {
  sd_id : option string;
  sd_signal_type : option string;
  sd_signal_strength : option string;
  sd_position_size_percent : option Q;
  sd_entry_price : option Q;
  sd_stop_loss : option Q;
  sd_take_profit : option Q;
  sd_risk_reward_ratio : option Q;
  sd_technical_indicators : option TechnicalIndicators;
  sd_ticker : option string;
  sd_exchange : option string;
  sd_model_version : option string;
  sd_risk_level : option RiskLevel
}.

(** [d.get(key, default)] *)
Definition get {A : Type} (field : option A) (default : A) : A :=
  match field with
  | Some v => v
  | None => default
  end.

(** Truth value of a number. *)
Definition truthy (x : Q) : bool := negb (Qeq_bool x 0).

(** Truth value of an [Optional[float]]. *)
Definition truthy_opt (x : option Q) : bool :=
  match x with
  | Some v => truthy v
  | None => false
  end.

End Signals.

(* ===================================================================== *)
(** * app/utils/risk_manager.py                                           *)
(* ===================================================================== *)

Module RiskManager.
Import Py Signals.
Local Open Scope Q_scope.
Local Open Scope py_scope.

(** An entry of [self.open_positions]. *)
Record Position : Type := {
  pos_ticker : option string;
  pos_signal_type : option string;
  pos_entry_price : option Q;
  pos_size : option Q
}.

(** The fields of the manager that [validate_signal] reads. *)
Record RiskManager : Type := {
  daily_trades_count : Z;
  open_positions : list Position
}.

(** [__init__] *)
Definition init : RiskManager := {|
  daily_trades_count := 0;
  open_positions := []
|}.

(** Lines 37-48. *)
Definition fresh_validation (signal_data : SignalData) : SignalValidation := {|
  signal_id := get (sd_id signal_data) "unknown"%string;
  is_valid := true;
  validation_errors := [];
  risk_check_passed := true;
  position_size_check_passed := true;
  correlation_check_passed := true;
  market_hours_check_passed := true;
  liquidity_check_passed := true;
  adjusted_position_size := None;
  adjusted_stop_loss := None;
  adjusted_take_profit := None;
  warnings := [];
  recommendations := []
|}.

(** [validation.is_valid = False] followed by
    [validation.validation_errors.append(msg)]. *)
Definition reject (msg : ErrorMsg) (v : SignalValidation) : SignalValidation := {|
  signal_id := signal_id v;
  is_valid := false;
  validation_errors := validation_errors v ++ [msg];
  risk_check_passed := risk_check_passed v;
  position_size_check_passed := position_size_check_passed v;
  correlation_check_passed := correlation_check_passed v;
  market_hours_check_passed := market_hours_check_passed v;
  liquidity_check_passed := liquidity_check_passed v;
  adjusted_position_size := adjusted_position_size v;
  adjusted_stop_loss := adjusted_stop_loss v;
  adjusted_take_profit := adjusted_take_profit v;
  warnings := warnings v;
  recommendations := recommendations v
|}.

Definition set_position_size_check (b : bool) (adj : option Q)
    (v : SignalValidation) : SignalValidation := {|
  signal_id := signal_id v;
  is_valid := is_valid v;
  validation_errors := validation_errors v;
  risk_check_passed := risk_check_passed v;
  position_size_check_passed := b;
  correlation_check_passed := correlation_check_passed v;
  market_hours_check_passed := market_hours_check_passed v;
  liquidity_check_passed := liquidity_check_passed v;
  adjusted_position_size := adj;
  adjusted_stop_loss := adjusted_stop_loss v;
  adjusted_take_profit := adjusted_take_profit v;
  warnings := warnings v;
  recommendations := recommendations v
|}.

Definition set_risk_check (b : bool) (v : SignalValidation) : SignalValidation := {|
  signal_id := signal_id v;
  is_valid := is_valid v;
  validation_errors := validation_errors v;
  risk_check_passed := b;
  position_size_check_passed := position_size_check_passed v;
  correlation_check_passed := correlation_check_passed v;
  market_hours_check_passed := market_hours_check_passed v;
  liquidity_check_passed := liquidity_check_passed v;
  adjusted_position_size := adjusted_position_size v;
  adjusted_stop_loss := adjusted_stop_loss v;
  adjusted_take_profit := adjusted_take_profit v;
  warnings := warnings v;
  recommendations := recommendations v
|}.

Definition set_correlation_check (b : bool) (v : SignalValidation) : SignalValidation := {|
  signal_id := signal_id v;
  is_valid := is_valid v;
  validation_errors := validation_errors v;
  risk_check_passed := risk_check_passed v;
  position_size_check_passed := position_size_check_passed v;
  correlation_check_passed := b;
  market_hours_check_passed := market_hours_check_passed v;
  liquidity_check_passed := liquidity_check_passed v;
  adjusted_position_size := adjusted_position_size v;
  adjusted_stop_loss := adjusted_stop_loss v;
  adjusted_take_profit := adjusted_take_profit v;
  warnings := warnings v;
  recommendations := recommendations v
|}.

Definition set_market_hours_check (b : bool) (w : list WarningMsg)
    (v : SignalValidation) : SignalValidation := {|
  signal_id := signal_id v;
  is_valid := is_valid v;
  validation_errors := validation_errors v;
  risk_check_passed := risk_check_passed v;
  position_size_check_passed := position_size_check_passed v;
  correlation_check_passed := correlation_check_passed v;
  market_hours_check_passed := b;
  liquidity_check_passed := liquidity_check_passed v;
  adjusted_position_size := adjusted_position_size v;
  adjusted_stop_loss := adjusted_stop_loss v;
  adjusted_take_profit := adjusted_take_profit v;
  warnings := warnings v ++ w;
  recommendations := recommendations v
|}.

Definition set_liquidity_check (b : bool) (v : SignalValidation) : SignalValidation := {|
  signal_id := signal_id v;
  is_valid := is_valid v;
  validation_errors := validation_errors v;
  risk_check_passed := risk_check_passed v;
  position_size_check_passed := position_size_check_passed v;
  correlation_check_passed := correlation_check_passed v;
  market_hours_check_passed := market_hours_check_passed v;
  liquidity_check_passed := b;
  adjusted_position_size := adjusted_position_size v;
  adjusted_stop_loss := adjusted_stop_loss v;
  adjusted_take_profit := adjusted_take_profit v;
  warnings := warnings v;
  recommendations := recommendations v
|}.

Definition set_adjusted_stop_loss (x : Q) (v : SignalValidation) : SignalValidation := {|
  signal_id := signal_id v;
  is_valid := is_valid v;
  validation_errors := validation_errors v;
  risk_check_passed := risk_check_passed v;
  position_size_check_passed := position_size_check_passed v;
  correlation_check_passed := correlation_check_passed v;
  market_hours_check_passed := market_hours_check_passed v;
  liquidity_check_passed := liquidity_check_passed v;
  adjusted_position_size := adjusted_position_size v;
  adjusted_stop_loss := Some x;
  adjusted_take_profit := adjusted_take_profit v;
  warnings := warnings v;
  recommendations := recommendations v
|}.

Definition set_adjusted_take_profit (x : Q) (v : SignalValidation) : SignalValidation := {|
  signal_id := signal_id v;
  is_valid := is_valid v;
  validation_errors := validation_errors v;
  risk_check_passed := risk_check_passed v;
  position_size_check_passed := position_size_check_passed v;
  correlation_check_passed := correlation_check_passed v;
  market_hours_check_passed := market_hours_check_passed v;
  liquidity_check_passed := liquidity_check_passed v;
  adjusted_position_size := adjusted_position_size v;
  adjusted_stop_loss := adjusted_stop_loss v;
  adjusted_take_profit := Some x;
  warnings := warnings v;
  recommendations := recommendations v
|}.

Definition set_recommendations (r : list Recommendation)
    (v : SignalValidation) : SignalValidation := {|
  signal_id := signal_id v;
  is_valid := is_valid v;
  validation_errors := validation_errors v;
  risk_check_passed := risk_check_passed v;
  position_size_check_passed := position_size_check_passed v;
  correlation_check_passed := correlation_check_passed v;
  market_hours_check_passed := market_hours_check_passed v;
  liquidity_check_passed := liquidity_check_passed v;
  adjusted_position_size := adjusted_position_size v;
  adjusted_stop_loss := adjusted_stop_loss v;
  adjusted_take_profit := adjusted_take_profit v;
  warnings := warnings v;
  recommendations := r
|}.

(** The three placeholder predicates (lines 120-148). *)
Definition _check_correlation (signal_data : SignalData) : bool := true.
Definition _check_market_hours (signal_data : SignalData) : bool := true.
Definition _check_liquidity (signal_data : SignalData) : bool := true.

(** [signal_data.get("technical_indicators", {}).get("atr", 0)] *)
Definition atr_of (signal_data : SignalData) : Q :=
  match sd_technical_indicators signal_data with
  | Some ti => get (ti_atr ti) 0
  | None => 0
  end.

(** [signal_data.get("technical_indicators", {}).get("volatility", 0)] *)
Definition volatility_of (signal_data : SignalData) : Q :=
  match sd_technical_indicators signal_data with
  | Some ti => get (ti_volatility ti) 0
  | None => 0
  end.

(** [signal_data.get("signal_type") in ["BUY", "STRONG_BUY"]] *)
Definition is_long (signal_data : SignalData) : bool :=
  match sd_signal_type signal_data with
  | Some t => str_in t ["BUY"; "STRONG_BUY"]%string
  | None => false
  end.

(** Lines 160-167. *)
Definition adjust_stop_loss (v : SignalValidation) (signal_data : SignalData)
    (risk_params : RiskParameters) : result SignalValidation :=
  let entry_price := get (sd_entry_price signal_data) 0 in
  if negb (truthy_opt (adjusted_stop_loss v)) then
    let atr := atr_of signal_data in
    if truthy atr then
      if is_long signal_data then
        m <- RiskParameters_getattr risk_params "stop_loss_atr_multiplier" ;;
        Ok (set_adjusted_stop_loss (entry_price - m * atr) v)
      else
        m <- RiskParameters_getattr risk_params "stop_loss_atr_multiplier" ;;
        Ok (set_adjusted_stop_loss (entry_price + m * atr) v)
    else Ok v
  else Ok v.

(** Lines 169-176. *)
Definition adjust_take_profit (v : SignalValidation) (signal_data : SignalData)
    (risk_params : RiskParameters) : result SignalValidation :=
  let entry_price := get (sd_entry_price signal_data) 0 in
  if negb (truthy_opt (adjusted_take_profit v)) then
    let atr := atr_of signal_data in
    if truthy atr then
      if is_long signal_data then
        m <- RiskParameters_getattr risk_params "take_profit_atr_multiplier" ;;
        Ok (set_adjusted_take_profit (entry_price + m * atr) v)
      else
        m <- RiskParameters_getattr risk_params "take_profit_atr_multiplier" ;;
        Ok (set_adjusted_take_profit (entry_price - m * atr) v)
    else Ok v
  else Ok v.

(** The [try] of lines 157-179 mutates [validation] in place: what was
    assigned before an exception stays, the handler only logs. *)
Definition _apply_risk_adjustments (validation : SignalValidation)
    (signal_data : SignalData) (risk_params : RiskParameters) : SignalValidation :=
  match adjust_stop_loss validation signal_data risk_params with
  | Raise _ => validation
  | Ok v1 =>
      match adjust_take_profit v1 signal_data risk_params with
      | Raise _ => v1
      | Ok v2 => v2
      end
  end.

(** Lines 183-210. *)
Definition _generate_recommendations (validation : SignalValidation)
    (signal_data : SignalData) : list Recommendation :=
  let signal_strength := get (sd_signal_strength signal_data) "MODERATE"%string in
  let r1 :=
    if String.eqb signal_strength "VERY_STRONG" then [VeryStrongSignal]
    else if String.eqb signal_strength "WEAK" then [WeakSignal]
    else [] in
  let rr_ratio := get (sd_risk_reward_ratio signal_data) 0 in
  let r2 :=
    if Qlt_bool rr_ratio 1.5 then [LowRiskReward]
    else if Qlt_bool 3 rr_ratio then [ExcellentRiskReward]
    else [] in
  let r3 :=
    if Qlt_bool 0.05 (volatility_of signal_data) then [HighVolatility] else [] in
  r1 ++ r2 ++ r3.

(** Lines 52-59. *)
Definition check_position_size (signal_data : SignalData)
    (risk_params : RiskParameters) (v : SignalValidation) : SignalValidation :=
  let position_size := get (sd_position_size_percent signal_data) 0 in
  if Qlt_bool (max_position_size risk_params) position_size then
    set_position_size_check false (Some (max_position_size risk_params))
      (reject (PositionSizeExceeds position_size (max_position_size risk_params)) v)
  else v.

(** Lines 62-71. *)
Definition check_risk_per_trade (signal_data : SignalData)
    (risk_params : RiskParameters) (v : SignalValidation) : SignalValidation :=
  let entry_price := get (sd_entry_price signal_data) 0 in
  let stop_loss := get (sd_stop_loss signal_data) 0 in
  if truthy entry_price && truthy stop_loss then
    let risk_amount := Qabs (entry_price - stop_loss) / entry_price in
    if Qlt_bool (max_risk_per_trade risk_params) risk_amount then
      set_risk_check false
        (reject (RiskPerTradeExceeds risk_amount (max_risk_per_trade risk_params)) v)
    else v
  else v.

(** Lines 74-78. *)
Definition check_daily_trades (self : RiskManager)
    (risk_params : RiskParameters) (v : SignalValidation) : SignalValidation :=
  if (max_daily_trades risk_params <=? daily_trades_count self)%Z then
    reject (DailyTradeLimitReached (daily_trades_count self)
              (max_daily_trades risk_params)) v
  else v.

(** Lines 81-85. *)
Definition check_open_positions (self : RiskManager)
    (risk_params : RiskParameters) (v : SignalValidation) : SignalValidation :=
  let n := Z.of_nat (length (open_positions self)) in
  if (max_open_positions risk_params <=? n)%Z then
    reject (MaxOpenPositionsReached n (max_open_positions risk_params)) v
  else v.

(** Lines 88-104. *)
Definition check_correlation (signal_data : SignalData)
    (v : SignalValidation) : SignalValidation :=
  if negb (_check_correlation signal_data)
  then set_correlation_check false (reject HighCorrelation v)
  else v.

Definition check_market_hours (signal_data : SignalData)
    (v : SignalValidation) : SignalValidation :=
  if negb (_check_market_hours signal_data)
  then set_market_hours_check false [OutsideMarketHours] v
  else v.

Definition check_liquidity (signal_data : SignalData)
    (v : SignalValidation) : SignalValidation :=
  if negb (_check_liquidity signal_data)
  then set_liquidity_check false (reject InsufficientLiquidity v)
  else v.

(** The checks of lines 51-104, in order. *)
Definition hard_checks (self : RiskManager) (signal_data : SignalData)
    (risk_params : RiskParameters) : SignalValidation :=
  check_liquidity signal_data
    (check_market_hours signal_data
       (check_correlation signal_data
          (check_open_positions self risk_params
             (check_daily_trades self risk_params
                (check_risk_per_trade signal_data risk_params
                   (check_position_size signal_data risk_params
                      (fresh_validation signal_data))))))).

(** [validate_signal].  On a dictionary whose entries have the types of
    [SignalData] no statement of the outer [try] raises (the division of
    line 65 is guarded by the truth value of [entry_price]), so the
    handler of lines 113-116 does not run. *)
Definition validate_signal (self : RiskManager) (signal_data : SignalData)
    (risk_params : RiskParameters) : SignalValidation :=
  let v := hard_checks self signal_data risk_params in
  let v := if is_valid v then _apply_risk_adjustments v signal_data risk_params else v in
  set_recommendations (_generate_recommendations v signal_data) v.

End RiskManager.

(* ===================================================================== *)
(** * app/services/ia_engine.py                                           *)
(* ===================================================================== *)

Module IAEngine.
Import Py Signals.
Local Open Scope Z_scope.
Local Open Scope py_scope.

(** Wall-clock instants and durations, in microseconds (the resolution
    of [datetime]). *)
Definition timedelta_seconds (s : Z) : Z := s * 1000000.

(** The engine fields that [_process_signal] touches, together with the
    signals that reached [message_queue.publish], oldest first. *)
Record Engine : Type := {
  signal_cache : gmap string Z;
  cache_ttl : Z;
  model_version : string;
  published : list SignalData
}.

(** [__init__] *)
Definition init : Engine := {|
  signal_cache := ∅;
  cache_ttl := 300;
  model_version := "deepseek-v3-trading-1.0";
  published := []
|}.

(** The readings of [datetime.now()] during one call of
    [_process_signal]: in [_is_signal_cached] (line 368), and twice in
    [_cache_signal] (lines 374 and 377). *)
Record Clock : Type := {
  t_check : Z;
  t_cache : Z;
  t_purge : Z
}.

(** Lines 364-370. *)
Definition _is_signal_cached (now : Z) (self : Engine) (cache_key : string) : bool :=
  match signal_cache self !! cache_key with
  | Some cached_time =>
      bool_decide (now - cached_time < timedelta_seconds (cache_ttl self))
  | None => false
  end.

(** Lines 372-383: store the instant, then delete the entries older than
    the time to live. *)
Definition _cache_signal (now current_time : Z) (self : Engine)
    (cache_key : string) : Engine := {|
  signal_cache :=
    filter (fun kv => ~ (current_time - kv.2 > timedelta_seconds (cache_ttl self)))
           (<[cache_key := now]> (signal_cache self));
  cache_ttl := cache_ttl self;
  model_version := model_version self;
  published := published self
|}.

(** [signal_data[key]]: a missing key raises [KeyError]. *)
Definition getitem {A : Type} (field : option A) : result A :=
  match field with
  | Some v => Ok v
  | None => Raise KeyError
  end.

(** [validated_signal[key]] on the [SignalValidation] that
    [RiskManager.validate_signal] returns: a pydantic model has no item
    access, so the read raises [TypeError] whatever the field holds. *)
Definition model_getitem {A : Type} (field_value : A) : result A := Raise TypeError.

(** [validated_signal.get(key)]: nor has it a [get] method. *)
Definition model_get {A : Type} (field_value : A) : result A := Raise AttributeError.

(** The attributes that [class Signal] declares ([signals.py], lines
    54-97). *)
Definition Signal_columns : list string :=
  ["id"; "timestamp"; "ticker"; "exchange"; "signal_type"; "signal_strength";
   "confidence_score"; "entry_price"; "current_price"; "quantity";
   "position_size_percent"; "stop_loss"; "take_profit"; "risk_reward_ratio";
   "max_loss_amount"; "risk_level"; "valid_until"; "execution_deadline";
   "status"; "executed_at"; "execution_price"; "technical_indicators";
   "sentiment_score"; "market_conditions"; "reasoning"; "model_version";
   "model_confidence_scores"; "extra_metadata"]%string.

(** [Signal(...)] with keyword arguments: the constructor of a declarative
    model raises [TypeError] on a keyword that is not an attribute of the
    class. *)
Definition Signal_init (kwargs : list string) : result unit :=
  if forallb (fun k => str_in k Signal_columns) kwargs then Ok tt
  else Raise TypeError.

(** [signal.<name>] *)
Definition Signal_getattr (name : string) : result unit :=
  if str_in name Signal_columns then Ok tt else Raise AttributeError.

(** The keywords of the constructor call of lines 441-462. *)
Definition save_kwargs : list string :=
  ["ticker"; "exchange"; "signal_type"; "signal_strength"; "confidence";
   "entry_price"; "stop_loss"; "take_profit"; "position_size_percent";
   "risk_reward_ratio"; "risk_level"; "valid_until"; "technical_indicators";
   "sentiment_score"; "reasoning"; "model_version";
   "model_confidence_scores"]%string.

(** Lines 421-472.  The argument expressions are evaluated first (the
    subscripted keys must be there; ['confidence'] is not an entry of
    [SignalData] and its read is left out), then the constructor runs;
    the handler of line 469 rolls back and returns [None]. *)
Definition _save_signal (signal_data : SignalData) : option SignalData :=
  try_except
    (_ <- getitem (sd_ticker signal_data) ;;
     _ <- getitem (sd_signal_type signal_data) ;;
     _ <- getitem (sd_entry_price signal_data) ;;
     _ <- getitem (sd_stop_loss signal_data) ;;
     _ <- getitem (sd_take_profit signal_data) ;;
     _ <- getitem (sd_risk_reward_ratio signal_data) ;;
     _ <- Signal_init save_kwargs ;;
     Ok (Some signal_data))
    (fun _ => None).

(** The attributes of the stored signal that lines 478-496 read, in
    order. *)
Definition publish_reads : list string :=
  ["id"; "created_at"; "ticker"; "exchange"; "signal_type"; "signal_strength";
   "confidence"; "entry_price"; "stop_loss"; "take_profit";
   "position_size_percent"; "risk_reward_ratio"; "risk_level"; "valid_until";
   "technical_indicators"; "sentiment_score"; "reasoning"]%string.

Fixpoint read_attributes (names : list string) : result unit :=
  match names with
  | [] => Ok tt
  | name :: rest =>
      _ <- Signal_getattr name ;;
      read_attributes rest
  end.

(** Lines 474-511: the message is built from the attributes of the stored
    signal and handed to [message_queue.publish]; the handler of line 510
    only logs. *)
Definition _publish_signal (signal : SignalData) (self : Engine) : Engine :=
  try_except
    (_ <- read_attributes publish_reads ;;
     Ok {| signal_cache := signal_cache self;
           cache_ttl := cache_ttl self;
           model_version := model_version self;
           published := published self ++ [signal] |})
    (fun _ => self).

(** Lines 385-419. *)
Definition _calculate_risk_level (signal_data : SignalData) : RiskLevel :=
  let pos_size := get (sd_position_size_percent signal_data) 0%Q in
  let s1 :=
    if Qlt_bool 0.05 pos_size then 3
    else if Qlt_bool 0.03 pos_size then 2
    else 1 in
  let rr_ratio := get (sd_risk_reward_ratio signal_data) 0%Q in
  let s2 :=
    if Qlt_bool rr_ratio 1.5 then s1 + 2
    else if Qlt_bool 3 rr_ratio then s1 - 1
    else s1 in
  let s3 :=
    match sd_technical_indicators signal_data with
    | Some ti => if Qlt_bool 0.03 (get (ti_volatility ti) 0%Q) then s2 + 2 else s2
    | None => s2
    end in
  if 5 <=? s3 then VERY_HIGH
  else if 4 <=? s3 then HIGH
  else if 2 <=? s3 then MEDIUM
  else LOW.

(** Lines 302-304. *)
Definition enrich (self : Engine) (ticker : string) (exchange : option string)
    (d : SignalData) : SignalData := {|
  sd_id := sd_id d;
  sd_signal_type := sd_signal_type d;
  sd_signal_strength := sd_signal_strength d;
  sd_position_size_percent := sd_position_size_percent d;
  sd_entry_price := sd_entry_price d;
  sd_stop_loss := sd_stop_loss d;
  sd_take_profit := sd_take_profit d;
  sd_risk_reward_ratio := sd_risk_reward_ratio d;
  sd_technical_indicators := sd_technical_indicators d;
  sd_ticker := Some ticker;
  sd_exchange := exchange;
  sd_model_version := Some (model_version self);
  sd_risk_level := sd_risk_level d
|}.

(** [if validated.get(key): signal_data[key'] = validated[key]] *)
Definition adjusted (adj : option Q) (current : option Q) : option Q :=
  if truthy_opt adj then adj else current.

(** Lines 324-329, given what the three [.get] calls returned. *)
Definition apply_adjustments (size stop take : option Q)
    (d : SignalData) : SignalData := {|
  sd_id := sd_id d;
  sd_signal_type := sd_signal_type d;
  sd_signal_strength := sd_signal_strength d;
  sd_position_size_percent := adjusted size (sd_position_size_percent d);
  sd_entry_price := sd_entry_price d;
  sd_stop_loss := adjusted stop (sd_stop_loss d);
  sd_take_profit := adjusted take (sd_take_profit d);
  sd_risk_reward_ratio := sd_risk_reward_ratio d;
  sd_technical_indicators := sd_technical_indicators d;
  sd_ticker := sd_ticker d;
  sd_exchange := sd_exchange d;
  sd_model_version := sd_model_version d;
  sd_risk_level := sd_risk_level d
|}.

(** Line 332. *)
Definition with_risk_level (d : SignalData) : SignalData := {|
  sd_id := sd_id d;
  sd_signal_type := sd_signal_type d;
  sd_signal_strength := sd_signal_strength d;
  sd_position_size_percent := sd_position_size_percent d;
  sd_entry_price := sd_entry_price d;
  sd_stop_loss := sd_stop_loss d;
  sd_take_profit := sd_take_profit d;
  sd_risk_reward_ratio := sd_risk_reward_ratio d;
  sd_technical_indicators := sd_technical_indicators d;
  sd_ticker := sd_ticker d;
  sd_exchange := sd_exchange d;
  sd_model_version := sd_model_version d;
  sd_risk_level := Some (_calculate_risk_level d)
|}.

(** [f"{exchange}"]: [None] prints as its name. *)
Definition format_exchange (exchange : option string) : string :=
  match exchange with
  | Some e => e
  | None => "None"
  end.

(** Line 296. *)
Definition make_cache_key (ticker : string) (exchange : option string)
    (signal_type : string) : string :=
  ticker +:+ ":" +:+ format_exchange exchange +:+ ":" +:+ signal_type.

(** Lines 287-362, with [self.risk_manager] as the [RiskManager] that
    [initialize] creates.  The engine is only changed by lines 339 and
    342, which do not raise, so the handler of line 361 leaves it as it
    was on entry. *)
Definition _process_signal (clk : Clock) (self : Engine)
    (risk_manager : RiskManager.RiskManager)
    (signal_data : SignalData) (ticker : string) (exchange : option string)
    : Engine :=
  try_except
    (signal_type <- getitem (sd_signal_type signal_data) ;;
     let cache_key := make_cache_key ticker exchange signal_type in
     if _is_signal_cached (t_check clk) self cache_key then Ok self
     else
       let signal_data := enrich self ticker exchange signal_data in
       let risk_params := default_risk_parameters in
       let validated_signal :=
         RiskManager.validate_signal risk_manager signal_data risk_params in
       valid <- model_getitem (is_valid validated_signal) ;;
       if negb valid then Ok self
       else
         size <- model_get (adjusted_position_size validated_signal) ;;
         stop <- model_get (adjusted_stop_loss validated_signal) ;;
         take <- model_get (adjusted_take_profit validated_signal) ;;
         let signal_data := apply_adjustments size stop take signal_data in
         let signal_data := with_risk_level signal_data in
         match _save_signal signal_data with
         | Some saved_signal =>
             Ok (_cache_signal (t_cache clk) (t_purge clk)
                   (_publish_signal saved_signal self) cache_key)
         | None => Ok self
         end)
    (fun _ => self).

End IAEngine.

(* ===================================================================== *)
(** * The specification's own words, and the inputs of the examples       *)
(* ===================================================================== *)

Module Reference.
Import Py DeepSeekClient.
Local Open Scope R_scope.



(** Bar length of a timeframe name, in minutes. *)
Definition timeframe_minutes (tf : string) : nat :=
  if String.eqb tf "1m" then 1
  else if String.eqb tf "5m" then 5
  else if String.eqb tf "15m" then 15
  else if String.eqb tf "1h" then 60
  else if String.eqb tf "4h" then 240
  else if String.eqb tf "1d" then 1440
  else 0.

(** One normalised bar: [close_pct] in column 3, RSI / 100 in column 5. *)
Definition bar (close_pct rsi_feature : R) : list R :=
  [0; 0; 0; close_pct; 0; rsi_feature].

(** The window of the end-to-end scenario: every bar has a close change of
    +0.002 and an RSI feature of 0.25, that is RSI 25. *)
Definition scenario_features : matrix := repeat (bar 0.002 0.25) 50.

Definition scenario_frame : DataFrame :=
  {| close := repeat 100 50; atr := Some (repeat (Fin 2) 50) |}.

Definition scenario_context : option MarketContext := Some [("vix_level"%string, 18)].


Definition flat_frame : DataFrame :=
  {| close := repeat 100 14; atr := None |}.

(** A candidate with the given classification, confidence and timeframe. *)
Definition candidate (label : SignalLabel) (c : R) (tf : string) : Signal :=
  {| signal_type := label; confidence := c; score := c; entry_price := 100;
     stop_loss := Fin 96; take_profit := Fin 106; risk_reward_ratio := Fin 1.5;
     timeframe := tf; technical_indicators := None |}.


Definition is_bearish (l : SignalLabel) : bool :=
  match l with
  | SELL | STRONG_SELL => true
  | _ => false
  end.

(** [b] is the first candidate of [l] that reaches the highest confidence
    of [l]: everything before it is strictly below, nothing after it is
    above. *)
Definition first_best (l : list Signal) (b : Signal) : Prop :=
  exists l1 l2,
    l = l1 ++ b :: l2 /\
    (forall c, In c l1 -> confidence c < confidence b) /\
    (forall c, In c l2 -> confidence c <= confidence b).

(** What the aggregator keeps of one direction: nothing of an empty
    subset, the first best candidate of a non-empty one. *)
Definition selection (subset kept : list Signal) : Prop :=
  match subset with
  | [] => kept = []
  | _ :: _ => exists b, kept = [b] /\ first_best subset b
  end.

End Reference.

Module RiskReference.
Import Py Signals.
Local Open Scope Q_scope.

(** The documented bounds of a fractional risk parameter: (0, 0.10]. *)
Definition in_bounds (v : Q) : Prop := 0 < v /\ v <= 0.1.

(** What a validation rejected for its position size keeps through the
    later checks. *)
Definition rejected_for_size (maximum : Q) (v : SignalValidation) : Prop :=
  is_valid v = false /\
  position_size_check_passed v = false /\
  adjusted_position_size v = Some maximum /\
  adjusted_stop_loss v = None /\
  adjusted_take_profit v = None.

(** A long candidate that passes every hard check under the default
    parameters and carries an ATR of 2: entry 100, stop 99.5 (a risk of
    0.5 percent), position size 1 percent. *)
Definition long_candidate : SignalData := {|
  sd_id := Some "sig-1"%string;
  sd_signal_type := Some "BUY"%string;
  sd_signal_strength := Some "STRONG"%string;
  sd_position_size_percent := Some 0.01;
  sd_entry_price := Some 100;
  sd_stop_loss := Some 99.5;
  sd_take_profit := Some 103;
  sd_risk_reward_ratio := Some 6;
  sd_technical_indicators := Some {| ti_atr := Some 2; ti_volatility := Some 0.01 |};
  sd_ticker := Some "AAPL"%string;
  sd_exchange := None;
  sd_model_version := None;
  sd_risk_level := None
|}.

(** The same candidate with a position size of 8 percent. *)
Definition oversized_candidate : SignalData := {|
  sd_id := Some "sig-2"%string;
  sd_signal_type := Some "BUY"%string;
  sd_signal_strength := Some "STRONG"%string;
  sd_position_size_percent := Some 0.08;
  sd_entry_price := Some 100;
  sd_stop_loss := Some 99.5;
  sd_take_profit := Some 103;
  sd_risk_reward_ratio := Some 6;
  sd_technical_indicators := Some {| ti_atr := Some 2; ti_volatility := Some 0.01 |};
  sd_ticker := Some "AAPL"%string;
  sd_exchange := None;
  sd_model_version := None;
  sd_risk_level := None
|}.

End RiskReference.

Module EngineReference.
Import Py Signals IAEngine.
Local Open Scope Z_scope.
Local Open Scope py_scope.

(** All three clock readings of a call at the same instant, [s] seconds
    after the start. *)
Definition clock_at (s : Z) : Clock :=
  {| t_check := timedelta_seconds s;
     t_cache := timedelta_seconds s;
     t_purge := timedelta_seconds s |}.

End EngineReference.

(* ===================================================================== *)
(** * Further code of the three files                                     *)
(* ===================================================================== *)

(** ** [deepseek_client.py]: the end of [normalize_timeseries] and
       [_generate_reasoning] *)

Module ClientMore.
Import Py DeepSeekClient.
Local Open Scope R_scope.

(** [np.clip(x, lo, hi)] *)
Definition clip (lo hi x : R) : R :=
  if Rlt_dec x lo then lo
  else if Rgt_dec x hi then hi
  else x.

(** Line 187, on one entry: [np.clip(features, -3, 3) / 3]. *)
Definition clip_scale (x : R) : R := clip (-3) 3 x / 3.

(** Line 187, on the array of the selected columns (line 184, after
    [fillna(0)]): column 3 is [close_pct], column 5 is [rsi]. *)
Definition finish_features (raw : matrix) : matrix := map (map clip_scale) raw.

(** The sentences [_generate_reasoning] joins with [". "]; the arguments
    are the values the f-strings format. *)
Inductive ReasoningPart : Type :=
| Headline (label : SignalLabel) (conf : R)
| RsiOversold (rsi : R)
| RsiOverbought (rsi : R)
| TrendUp
| TrendDown
| VolatilityWarning.

(** Lines 369-401.  [prediction['features']] holds the three keys
    together or, on the fallback path, none. *)
Definition _generate_reasoning (prediction : Prediction) : list ReasoningPart :=
  let head := [Headline (p_signal_type prediction) (p_confidence prediction)] in
  match p_features prediction with
  | None => head
  | Some f =>
      head
      ++ (if Rlt_dec (f_rsi f) 30 then [RsiOversold (f_rsi f)]
          else if Rgt_dec (f_rsi f) 70 then [RsiOverbought (f_rsi f)]
          else [])
      ++ (if Rgt_dec (f_trend f) 0.001 then [TrendUp]
          else if Rlt_dec (f_trend f) (-0.001) then [TrendDown]
          else [])
      ++ (if Rgt_dec (f_volatility f) 0.02 then [VolatilityWarning] else [])
  end.

(** A configuration file with lower thresholds than the defaults: floor
    and buy threshold 0.3, sell threshold -0.3. *)
Definition eager_config : Config := {|
  confidence_threshold := 0.3;
  th_strong_buy := 0.85;
  th_buy := 0.3;
  th_sell := -0.3;
  th_strong_sell := -0.85
|}.

(** Thresholds in their natural order around zero. *)
Definition ordered (cfg : Config) : Prop :=
  th_strong_sell cfg <= th_sell cfg /\
  th_sell cfg <= 0 /\
  0 <= th_buy cfg /\
  th_buy cfg <= th_strong_buy cfg.

End ClientMore.

(** ** [risk_manager.py]: the trade ledger *)

Module LedgerMore.
Import Py Signals RiskManager.
Local Open Scope Z_scope.

(** Lines 218-224. *)
Definition position_of (signal_data : SignalData) : Position := {|
  pos_ticker := sd_ticker signal_data;
  pos_signal_type := sd_signal_type signal_data;
  pos_entry_price := sd_entry_price signal_data;
  pos_size := sd_position_size_percent signal_data
|}.

(** Lines 212-230. *)
Definition record_trade (self : RiskManager) (signal_data : SignalData) : RiskManager := {|
  daily_trades_count := daily_trades_count self + 1;
  open_positions := open_positions self ++ [position_of signal_data]
|}.

(** [p["ticker"] != ticker]: an entry without ticker differs from every
    ticker. *)
Definition other_ticker (ticker : string) (p : Position) : bool :=
  match pos_ticker p with
  | Some t => negb (String.eqb t ticker)
  | None => true
  end.

(** Lines 232-238. *)
Definition close_position (self : RiskManager) (ticker : string) : RiskManager := {|
  daily_trades_count := daily_trades_count self;
  open_positions := List.filter (other_ticker ticker) (open_positions self)
|}.

(** Lines 240-243. *)
Definition reset_daily_counters (self : RiskManager) : RiskManager := {|
  daily_trades_count := 0;
  open_positions := open_positions self
|}.

(** [n] trades recorded one after the other. *)
Fixpoint record_trades (self : RiskManager) (trades : list SignalData) : RiskManager :=
  match trades with
  | [] => self
  | d :: rest => record_trades (record_trade self d) rest
  end.

(** The per-trade risk rule of lines 62-66 as a proposition: it binds only
    a candidate whose entry price and stop-loss are both present and not
    zero. *)
Definition risk_rule (signal_data : SignalData) (risk_params : RiskParameters) : Prop :=
  truthy (get (sd_entry_price signal_data) 0%Q) = true ->
  truthy (get (sd_stop_loss signal_data) 0%Q) = true ->
  (Qabs (get (sd_entry_price signal_data) 0 - get (sd_stop_loss signal_data) 0)
     / get (sd_entry_price signal_data) 0
   <= max_risk_per_trade risk_params)%Q.

End LedgerMore.

(** ** [ia_engine.py]: the watch list and the risk level *)

Module EngineMore.
Import Py Signals IAEngine.
Local Open Scope Z_scope.

(** [watched["exchange"] == exchange] *)
Definition same_exchange (a b : option string) : bool :=
  match a, b with
  | Some x, Some y => String.eqb x y
  | None, None => true
  | _, _ => false
  end.

(** Lines 138-144, over [self.tickers_to_watch]. *)
Fixpoint _is_watched_ticker (tickers_to_watch : list (string * option string))
    (ticker : string) (exchange : option string) : bool :=
  match tickers_to_watch with
  | [] => false
  | (t, e) :: rest =>
      if String.eqb t ticker then
        match exchange with
        | None => true
        | Some _ =>
            if same_exchange e exchange then true
            else _is_watched_ticker rest ticker exchange
        end
      else _is_watched_ticker rest ticker exchange
  end.

(** Lines 80-86. *)
Definition loaded_tickers : list (string * option string) :=
  [("BTC/USDT", Some "binance"); ("ETH/USDT", Some "binance");
   ("AAPL", None); ("TSLA", None); ("SPY", None)]%string.

(** A short candidate: entry 100, stop 100.5, position size 1 percent,
    no risk/reward entry. *)
Definition short_candidate : SignalData := {|
  sd_id := Some "sig-4"%string;
  sd_signal_type := Some "SELL"%string;
  sd_signal_strength := Some "STRONG"%string;
  sd_position_size_percent := Some 0.01%Q;
  sd_entry_price := Some 100%Q;
  sd_stop_loss := Some 100.5%Q;
  sd_take_profit := Some 97%Q;
  sd_risk_reward_ratio := None;
  sd_technical_indicators := None;
  sd_ticker := Some "AAPL"%string;
  sd_exchange := None;
  sd_model_version := None;
  sd_risk_level := None
|}.

(** The order of the risk levels. *)
Definition level_rank (l : RiskLevel) : Z :=
  match l with
  | LOW => 0
  | MEDIUM => 1
  | HIGH => 2
  | VERY_HIGH => 3
  end.

(** [signal_data] with another position size. *)
Definition with_position_size (p : option Q) (d : SignalData) : SignalData := {|
  sd_id := sd_id d;
  sd_signal_type := sd_signal_type d;
  sd_signal_strength := sd_signal_strength d;
  sd_position_size_percent := p;
  sd_entry_price := sd_entry_price d;
  sd_stop_loss := sd_stop_loss d;
  sd_take_profit := sd_take_profit d;
  sd_risk_reward_ratio := sd_risk_reward_ratio d;
  sd_technical_indicators := sd_technical_indicators d;
  sd_ticker := sd_ticker d;
  sd_exchange := sd_exchange d;
  sd_model_version := sd_model_version d;
  sd_risk_level := sd_risk_level d
|}.

End EngineMore.

(* ===================================================================== *)
(** * Facts about the hyperbolic tangent                                  *)
(* ===================================================================== *)

Module Tanh.
Local Open Scope R_scope.

Lemma tanh_exp (x : R) : tanh x = 1 - 2 / (exp (2 * x) + 1).
Proof.
  unfold tanh, sinh, cosh.
  pose proof (exp_pos x) as Hx.
  assert (Hd : exp (2 * x) = exp x * exp x).
  { replace (2 * x) with (x + x) by lra. apply exp_plus. }
  rewrite Hd, exp_Ropp. field. nra.
Qed.

Lemma tanh_lt_1 (x : R) : tanh x < 1.
Proof.
  rewrite tanh_exp. pose proof (exp_pos (2 * x)) as Hx.
  assert (0 < 2 / (exp (2 * x) + 1)); [|lra].
  apply Rdiv_lt_0_compat; lra.
Qed.

Lemma tanh_gt_m1 (x : R) : -1 < tanh x.
Proof.
  rewrite tanh_exp. pose proof (exp_pos (2 * x)) as Hx.
  assert (2 / (exp (2 * x) + 1) < 2); [|lra].
  apply Rmult_lt_reg_r with (exp (2 * x) + 1); [lra|].
  unfold Rdiv. rewrite Rmult_assoc, Rinv_l by lra. lra.
Qed.

Lemma tanh_strict_mono (x y : R) : x < y -> tanh x < tanh y.
Proof.
  intros Hxy. rewrite !tanh_exp.
  pose proof (exp_pos (2 * x)) as Hx.
  assert (He : exp (2 * x) < exp (2 * y)) by (apply exp_increasing; lra).
  assert (Hi : / (exp (2 * y) + 1) < / (exp (2 * x) + 1)).
  { apply Rinv_lt_contravar; [nra | lra]. }
  unfold Rdiv. lra.
Qed.

Lemma tanh_mono (x y : R) : x <= y -> tanh x <= tanh y.
Proof.
  intros [Hlt | ->]; [left; now apply tanh_strict_mono | right; reflexivity].
Qed.

Lemma tanh_odd (x : R) : tanh (- x) = - tanh x.
Proof.
  unfold tanh, sinh, cosh. rewrite Ropp_involutive.
  pose proof (exp_pos x) as Hx. pose proof (exp_pos (- x)) as Hm.
  field. lra.
Qed.

Lemma Rabs_tanh_le_1 (x : R) : Rabs (tanh x) <= 1.
Proof.
  pose proof (tanh_lt_1 x). pose proof (tanh_gt_m1 x).
  apply Rabs_le. lra.
Qed.

(** On [[-b, b]] the hyperbolic tangent stays within [tanh b]. *)
Lemma Rabs_tanh_bound (x b : R) : Rabs x <= b -> Rabs (tanh x) <= tanh b.
Proof.
  intros Hb.
  assert (- b <= x <= b) as [Hlo Hhi].
  { unfold Rabs in Hb. destruct (Rcase_abs x); lra. }
  apply Rabs_le. split.
  - rewrite <- tanh_odd. now apply tanh_mono.
  - now apply tanh_mono.
Qed.

(** [exp 0.1 <= 10/9], from [1 - 0.1 <= exp (-0.1)]. *)
Lemma exp_tenth : exp 0.1 <= 10 / 9.
Proof.
  pose proof (exp_ineq1_le (- 0.1)) as Hlow.
  pose proof (exp_pos 0.1) as Hp.
  assert (Hinv : exp 0.1 * exp (- 0.1) = 1).
  { rewrite <- exp_plus. replace (0.1 + - 0.1) with 0 by lra. apply exp_0. }
  nra.
Qed.

Lemma exp_1_4 : exp (2 * 0.7) < 4.7.
Proof.
  replace (2 * 0.7) with (1 + (0.1 + 0.1 + (0.1 + 0.1))) by lra.
  rewrite !exp_plus.
  pose proof exp_le_3 as H1. pose proof exp_tenth as Ht.
  pose proof (exp_pos 0.1) as Hp. pose proof (exp_pos 1) as Hp1.
  assert (H2 : exp 0.1 * exp 0.1 <= 100 / 81) by nra.
  assert (H2p : 0 < exp 0.1 * exp 0.1) by nra.
  assert (H4 : exp 0.1 * exp 0.1 * (exp 0.1 * exp 0.1) <= 100 / 81 * (100 / 81)) by nra.
  assert (H4p : 0 < exp 0.1 * exp 0.1 * (exp 0.1 * exp 0.1)) by nra.
  nra.
Qed.

(** The numeric fact behind the default thresholds: [tanh 0.7], about
    0.604, is below the buy threshold. *)
Lemma tanh_0_7 : tanh 0.7 < 0.65.
Proof.
  rewrite tanh_exp. pose proof exp_1_4 as H. pose proof (exp_pos (2 * 0.7)) as Hp.
  assert (Hq : 0.35 < 2 / (exp (2 * 0.7) + 1)); [|lra].
  apply Rmult_lt_reg_r with (exp (2 * 0.7) + 1); [lra|].
  unfold Rdiv. rewrite Rmult_assoc, Rinv_l by lra. lra.
Qed.

End Tanh.

(* ===================================================================== *)
(** * Properties of the prediction ([_run_prediction], [predict_signals]) *)
(* ===================================================================== *)

Module PredictionFacts.
Import Py DeepSeekClient Reference Tanh.
Local Open Scope R_scope.

Ltac break_if :=
  match goal with
  | |- context [if ?c then _ else _] => destruct c
  | H : context [if ?c then _ else _] |- _ => destruct c
  end.

Lemma trend_term_cases (t : R) :
  (t > 0.001 -> trend_term t = 0.3) /\
  (t < -0.001 -> trend_term t = - 0.3) /\
  (-0.001 <= t <= 0.001 -> trend_term t = 0).
Proof. unfold trend_term. repeat split; intros; repeat break_if; lra. Qed.

Lemma rsi_term_cases (r : R) :
  (r < 30 -> rsi_term r = 0.4) /\
  (r > 70 -> rsi_term r = - 0.4) /\
  (30 <= r <= 70 -> rsi_term r = 0).
Proof. unfold rsi_term. repeat split; intros; repeat break_if; lra. Qed.

Lemma trend_term_bound (t : R) : Rabs (trend_term t) <= 0.3.
Proof. unfold trend_term. apply Rabs_le. repeat break_if; lra. Qed.

Lemma rsi_term_bound (r : R) : Rabs (rsi_term r) <= 0.4.
Proof. unfold rsi_term. apply Rabs_le. repeat break_if; lra. Qed.

Lemma market_adjust_cases (ctx : option MarketContext) (s : R) :
  market_adjust ctx s = s \/ market_adjust ctx s = s * 0.7.
Proof.
  unfold market_adjust. destruct ctx as [[|kv d]|]; auto.
  break_if; auto.
Qed.

Lemma market_adjust_bound (ctx : option MarketContext) (s : R) :
  Rabs (market_adjust ctx s) <= Rabs s.
Proof.
  destruct (market_adjust_cases ctx s) as [-> | ->]; [lra|].
  rewrite Rabs_mult, (Rabs_right 0.7) by lra.
  pose proof (Rabs_pos s). lra.
Qed.

Lemma raw_score_bound (ctx : option MarketContext) (f : FeatureSummary) :
  Rabs (raw_score ctx f) <= 0.7.
Proof.
  unfold raw_score. eapply Rle_trans; [apply market_adjust_bound|].
  pose proof (trend_term_bound (f_trend f)) as Ht.
  pose proof (rsi_term_bound (f_rsi f)) as Hr.
  assert (- 0.3 <= trend_term (f_trend f) <= 0.3) as [? ?].
  { unfold Rabs in Ht. destruct (Rcase_abs (trend_term (f_trend f))); lra. }
  assert (- 0.4 <= rsi_term (f_rsi f) <= 0.4) as [? ?].
  { unfold Rabs in Hr. destruct (Rcase_abs (rsi_term (f_rsi f))); lra. }
  apply Rabs_le. lra.
Qed.

(** The two ways out of [_run_prediction]. *)
Lemma run_prediction_ok cfg features tf ctx f :
  read_features features = Ok f ->
  _run_prediction cfg features tf ctx =
  {| p_score := tanh (raw_score ctx f);
     p_confidence := Rabs (tanh (raw_score ctx f));
     p_signal_type := classify cfg (tanh (raw_score ctx f));
     p_timeframe := tf;
     p_features := Some f |}.
Proof. intros H. unfold _run_prediction. now rewrite H. Qed.

Lemma run_prediction_fallback cfg features tf ctx e :
  read_features features = Raise e ->
  _run_prediction cfg features tf ctx =
  {| p_score := 0; p_confidence := 0; p_signal_type := HOLD;
     p_timeframe := tf; p_features := None |}.
Proof. intros H. unfold _run_prediction. now rewrite H. Qed.


(** C8. For every feature array, timeframe and market context the
    prediction of [_run_prediction] has [confidence = |score|], a score in
    [[-1, 1]] and so a confidence in [[0, 1]]; when reading the array
    raises, the fallback prediction has score 0 and confidence 0. *)
Theorem run_prediction_confidence_abs_score
    (cfg : Config) (features : matrix) (tf : string) (ctx : option MarketContext) :
  p_confidence (_run_prediction cfg features tf ctx)
    = Rabs (p_score (_run_prediction cfg features tf ctx)) /\
  -1 <= p_score (_run_prediction cfg features tf ctx) <= 1 /\
  0 <= p_confidence (_run_prediction cfg features tf ctx) <= 1 /\
  match read_features features with
  | Ok f => p_score (_run_prediction cfg features tf ctx) = tanh (raw_score ctx f)
  | Raise _ =>
      p_score (_run_prediction cfg features tf ctx) = 0 /\
      p_confidence (_run_prediction cfg features tf ctx) = 0
  end.
Proof.
  destruct (read_features features) as [f|e] eqn:Hread.
  - rewrite (run_prediction_ok cfg features tf ctx f Hread). cbn.
    pose proof (tanh_lt_1 (raw_score ctx f)).
    pose proof (tanh_gt_m1 (raw_score ctx f)).
    pose proof (Rabs_tanh_le_1 (raw_score ctx f)).
    pose proof (Rabs_pos (tanh (raw_score ctx f))).
    repeat split; lra.
  - rewrite (run_prediction_fallback cfg features tf ctx e Hread). cbn.
    rewrite Rabs_R0. repeat split; lra.
Qed.

(** Under the default thresholds the prediction never leaves HOLD. *)
Lemma run_prediction_default (features : matrix) (tf : string)
    (ctx : option MarketContext) :
  p_confidence (_run_prediction default_config features tf ctx) <= tanh 0.7 /\
  p_signal_type (_run_prediction default_config features tf ctx) = HOLD.
Proof.
  pose proof tanh_0_7 as H07.
  destruct (read_features features) as [f|e] eqn:Hread.
  - rewrite (run_prediction_ok _ features tf ctx f Hread). cbn.
    pose proof (Rabs_tanh_bound _ _ (raw_score_bound ctx f)) as Hb.
    split; [exact Hb|].
    assert (- tanh 0.7 <= tanh (raw_score ctx f) <= tanh 0.7) as [? ?].
    { unfold Rabs in Hb. destruct (Rcase_abs (tanh (raw_score ctx f))); lra. }
    unfold classify; cbn. repeat break_if; try reflexivity; lra.
  - rewrite (run_prediction_fallback _ features tf ctx e Hread). cbn.
    split; [|reflexivity].
    pose proof (tanh_mono 0 0.7 ltac:(lra)) as Hm.
    unfold tanh at 1 in Hm. rewrite sinh_0 in Hm. lra.
Qed.

Section DefaultLoop.
Variable normalize_timeseries : DataFrame -> result matrix.

(** With the default thresholds the loop of [predict_signals] appends
    nothing to its accumulator. *)
Lemma predict_loop_default ctx items signals :
  match predict_loop normalize_timeseries default_config ctx items signals with
  | Ok r => r = signals
  | Raise _ => True
  end.
Proof.
  revert signals. induction items as [|[tf [data|]] rest IH]; intros signals; cbn [predict_loop].
  - reflexivity.
  - destruct (df_len data <? 50)%nat; [apply IH|].
    destruct (normalize_timeseries data) as [m|e]; cbn [bind]; [|exact I].
    destruct (run_prediction_default m tf ctx) as [Hc Hh].
    pose proof tanh_0_7.
    destruct (Rge_dec _ _) as [Hge|_]; [cbn in Hge; lra|]. apply IH.
  - apply IH.
Qed.

Lemma predict_signals_default_nil data ctx :
  predict_signals normalize_timeseries default_config data ctx = [].
Proof.
  unfold predict_signals.
  pose proof (predict_loop_default ctx data []) as H.
  destruct (predict_loop _ _ _ _ _) as [r|e]; cbn; [subst r|]; reflexivity.
Qed.

End DefaultLoop.

(** C3. Under the default configuration (confidence floor 0.7, buy
    threshold 0.65, trend term 0.3, RSI term 0.4, attenuation 0.7, tanh)
    every prediction has confidence at most [tanh 0.7 < 0.65 < 0.7] and
    classification HOLD, and [predict_signals] returns the empty list for
    every normaliser, every input and every market context. *)
Theorem default_config_never_signals :
  tanh 0.7 < 0.65 /\ 0.65 < 0.7 /\
  (forall (features : matrix) (tf : string) (ctx : option MarketContext),
      p_confidence (_run_prediction default_config features tf ctx) <= tanh 0.7 /\
      p_signal_type (_run_prediction default_config features tf ctx) = HOLD) /\
  (forall (normalize_timeseries : DataFrame -> result matrix)
          (timeseries_data : list (string * option DataFrame))
          (ctx : option MarketContext),
      predict_signals normalize_timeseries default_config timeseries_data ctx = []).
Proof.
  split; [apply tanh_0_7|]. split; [lra|]. split.
  - intros. apply run_prediction_default.
  - intros. apply predict_signals_default_nil.
Qed.




(** Reading the window of the end-to-end scenario: RSI 25 and a mean
    close change of +0.002 over the last 20 bars. *)
Lemma read_scenario :
  exists f,
    read_features scenario_features = Ok f /\ f_rsi f = 25 /\ f_trend f = 0.002.
Proof.
  eexists. split; [reflexivity|]. cbn. split; [lra|].
  unfold mean, sum. cbn. field.
Qed.

(** C1, on the code. The scenario of the specification (RSI 25, mean close
    change +0.002, VIX 18) yields the raw score [0.3 + 0.4], the score
    [tanh 0.7], a confidence below the floor 0.70 and the classification
    HOLD; [predict_signals] returns no signal for it. *)
Theorem scenario_yields_no_signal :
  (exists f,
      read_features scenario_features = Ok f /\ f_rsi f = 25 /\ f_trend f = 0.002) /\
  p_score (_run_prediction default_config scenario_features "1h" scenario_context)
    = tanh 0.7 /\
  p_confidence (_run_prediction default_config scenario_features "1h" scenario_context)
    < 0.7 /\
  p_signal_type (_run_prediction default_config scenario_features "1h" scenario_context)
    = HOLD /\
  predict_signals (fun _ => Ok scenario_features) default_config
    [("1h"%string, Some scenario_frame)] scenario_context = [].
Proof.
  split; [exact read_scenario|].
  destruct read_scenario as (f & Hread & Hr & Ht).
  pose proof (run_prediction_default scenario_features "1h" scenario_context) as [Hc Hh].
  pose proof tanh_0_7.
  split; [|split; [lra|split; [exact Hh|apply predict_signals_default_nil]]].
  rewrite (run_prediction_ok _ _ _ _ f Hread). cbn.
  f_equal. unfold raw_score, scenario_context, market_adjust. cbn.
  rewrite Hr, Ht.
  rewrite (proj1 (trend_term_cases 0.002)) by lra.
  rewrite (proj1 (rsi_term_cases 25)) by lra.
  destruct (Rgt_dec 18 30); lra.
Qed.

End PredictionFacts.

(* ===================================================================== *)
(** * Properties of the candidates ([_create_signal], [_aggregate_signals]) *)
(* ===================================================================== *)

Module CandidateFacts.
Import Py DeepSeekClient Reference.
Local Open Scope R_scope.





(** The substring tests of lines 409-410 on the five labels. *)
Lemma contains_buy (l : SignalLabel) :
  str_contains "BUY" (label_string l) = is_bullish l.
Proof. destruct l; reflexivity. Qed.

Lemma contains_sell (l : SignalLabel) :
  str_contains "SELL" (label_string l) = is_bearish l.
Proof. destruct l; reflexivity. Qed.

Lemma filter_ext_eq {A : Type} (f g : A -> bool) (l : list A) :
  (forall x, f x = g x) -> List.filter f l = List.filter g l.
Proof.
  intros Hfg. induction l as [|x l IH]; cbn; [reflexivity|].
  rewrite Hfg, IH. reflexivity.
Qed.

(** [max] with a key returns the first element that reaches the maximum. *)
Lemma max_from_first (key : Signal -> R) (l : list Signal) :
  forall best,
  exists l1 l2,
    best :: l = l1 ++ max_from key best l :: l2 /\
    (forall c, In c l1 -> key c < key (max_from key best l)) /\
    (forall c, In c l2 -> key c <= key (max_from key best l)).
Proof.
  induction l as [|x l IH]; intros best; cbn [max_from].
  - exists [], []. repeat split; intros c [].
  - destruct (Rgt_dec (key x) (key best)) as [Hgt|Hle].
    + destruct (IH x) as (l1 & l2 & Heq & H1 & H2).
      exists (best :: l1), l2.
      split; [rewrite <- app_comm_cons; f_equal; exact Heq|].
      split; [|exact H2].
      assert (Hx : key x <= key (max_from key x l)).
      { assert (Hin : In x (l1 ++ max_from key x l :: l2))
          by (rewrite <- Heq; now left).
        apply in_app_or in Hin as [Hin | [Hm | Hin]];
          [left; now apply H1 | right; now rewrite Hm | now apply H2]. }
      intros c [<- | Hc]; [lra | now apply H1].
    + destruct (IH best) as (l1 & l2 & Heq & H1 & H2).
      destruct l1 as [|b l1].
      * rewrite app_nil_l in Heq. injection Heq as Hb Hl.
        exists [], (x :: l). split; [rewrite app_nil_l; f_equal; exact Hb|].
        split; [intros c []|].
        rewrite <- Hb. intros c [<- | Hc]; [lra|].
        pose proof (H2 c) as Hc2. rewrite <- Hb in Hc2.
        apply Hc2. rewrite <- Hl. exact Hc.
      * rewrite <- app_comm_cons in Heq. injection Heq as Hb Hl. subst b.
        exists (best :: x :: l1), l2.
        split; [rewrite <- !app_comm_cons; do 2 f_equal; exact Hl|].
        split; [|exact H2].
        assert (Hbest : key best < key (max_from key best l))
          by (apply H1; now left).
        intros c [<- | [<- | Hc]]; [exact Hbest | lra | apply H1; now right].
Qed.

Lemma max_by_selection (l : list Signal) :
  selection l match max_by confidence l with
              | Some b => [b]
              | None => []
              end.
Proof.
  destruct l as [|x l]; cbn; [reflexivity|].
  exists (max_from confidence x l). split; [reflexivity|].
  apply max_from_first.
Qed.

(** C9, as stated, fails on ties: of two bullish candidates with the same
    confidence the aggregator keeps the one that comes first, here the
    one-hour candidate, although the other is on the shorter timeframe. *)
Lemma aggregate_tie_counterexample :
  _aggregate_signals [candidate BUY 0.8 "1h"; candidate BUY 0.8 "5m"]
    = [candidate BUY 0.8 "1h"] /\
  confidence (candidate BUY 0.8 "5m") = confidence (candidate BUY 0.8 "1h") /\
  (timeframe_minutes "5m" < timeframe_minutes "1h")%nat.
Proof.
  split; [|split; [reflexivity | cbn; lia]].
  unfold candidate. cbn. destruct (Rgt_dec 0.8 0.8); [lra | reflexivity].
Qed.

(** C9, amended. [_aggregate_signals] splits the candidates into the
    bullish ones (BUY, STRONG_BUY) and the bearish ones (SELL, STRONG_SELL)
    and returns at most one per direction, bullish first: from each
    non-empty subset the candidate with the highest confidence, and among
    candidates of equal confidence the one that comes first in the list.
    Of three bullish candidates with confidences 0.72, 0.88 and 0.65 on
    1h, 15m and 5m it returns the one with 0.88. *)
Theorem aggregate_signals_first_best (signals : list Signal) :
  buy_signals signals = List.filter (fun s => is_bullish (signal_type s)) signals /\
  sell_signals signals = List.filter (fun s => is_bearish (signal_type s)) signals /\
  (exists kept_buy kept_sell,
      _aggregate_signals signals = kept_buy ++ kept_sell /\
      selection (buy_signals signals) kept_buy /\
      selection (sell_signals signals) kept_sell) /\
  (length (_aggregate_signals signals) <= 2)%nat /\
  _aggregate_signals
    [candidate BUY 0.72 "1h"; candidate STRONG_BUY 0.88 "15m"; candidate BUY 0.65 "5m"]
    = [candidate STRONG_BUY 0.88 "15m"].
Proof.
  split; [apply filter_ext_eq; intros; apply contains_buy|].
  split; [apply filter_ext_eq; intros; apply contains_sell|].
  assert (Hsel : exists kept_buy kept_sell,
             _aggregate_signals signals = kept_buy ++ kept_sell /\
             selection (buy_signals signals) kept_buy /\
             selection (sell_signals signals) kept_sell).
  { destruct signals as [|x l].
    - exists [], []. repeat split.
    - eexists _, _. split; [reflexivity|].
      split; apply max_by_selection. }
  split; [exact Hsel|]. split.
  - destruct Hsel as (kb & ks & -> & Hb & Hs).
    rewrite length_app.
    assert (Hlen : forall sub kept, selection sub kept -> (length kept <= 1)%nat).
    { intros [|y sub] kept Hk; cbn in Hk.
      - subst kept. cbn. lia.
      - destruct Hk as (b & -> & _). cbn. lia. }
    pose proof (Hlen _ _ Hb). pose proof (Hlen _ _ Hs). lia.
  - unfold candidate. cbn.
    destruct (Rgt_dec 0.88 0.72); [|lra]. cbn.
    destruct (Rgt_dec 0.65 0.88); [lra | reflexivity].
Qed.

End CandidateFacts.

(* ===================================================================== *)
(** * Properties of the risk rules ([RiskParameters], [validate_signal])  *)
(* ===================================================================== *)

Module RiskFacts.
Import Py Signals RiskManager RiskReference.
Local Open Scope Q_scope.

Lemma Qlt_bool_iff (x y : Q) : Qlt_bool x y = true <-> x < y.
Proof.
  unfold Qlt_bool. rewrite negb_true_iff.
  split; intros H.
  - apply Qnot_le_lt. intros Hle. apply Qle_bool_iff in Hle. congruence.
  - destruct (Qle_bool y x) eqn:E; [|reflexivity].
    apply Qle_bool_iff in E. exfalso. exact (Qlt_not_le _ _ H E).
Qed.

Lemma validate_percentages_ok (v : Q) :
  in_bounds v -> validate_percentages v = Ok v.
Proof.
  intros [H0 H1]. unfold validate_percentages.
  apply Qlt_bool_iff in H0. apply Qle_bool_iff in H1.
  now rewrite H0, H1.
Qed.

Lemma validate_percentages_raise (v : Q) :
  ~ in_bounds v -> validate_percentages v = Raise ValueError.
Proof.
  intros Hn. unfold validate_percentages.
  destruct (Qlt_bool 0 v) eqn:E0; [|reflexivity].
  destruct (Qle_bool v 0.1) eqn:E1; [|reflexivity].
  exfalso. apply Hn. split; [now apply Qlt_bool_iff | now apply Qle_bool_iff].
Qed.

Lemma in_bounds_dec (v : Q) : in_bounds v \/ ~ in_bounds v.
Proof.
  unfold in_bounds.
  destruct (Qlt_le_dec 0 v) as [H0|H0]; [|right; intros [H _]; exact (Qlt_not_le _ _ H H0)].
  destruct (Qlt_le_dec 0.1 v) as [H1|H1]; [right; intros [_ H]; exact (Qlt_not_le _ _ H1 H)|].
  left. now split.
Qed.

(** C10, as stated, fails: the default construction is accepted although
    its [max_correlation], 0.7, lies outside (0, 0.10]; so does a stop-loss
    percentage of 0.5 passed by the caller. *)
Lemma risk_parameters_bounds_counterexample :
  (exists rp,
      RiskParameters_init no_args = Ok rp /\ ~ in_bounds (max_correlation rp)) /\
  (exists rp,
      RiskParameters_init
        {| arg_max_position_size := None; arg_max_risk_per_trade := None;
           arg_stop_loss_percent := Some 0.5; arg_take_profit_percent := None;
           arg_max_daily_trades := None; arg_max_open_positions := None;
           arg_max_correlation := None |} = Ok rp /\
      ~ in_bounds (stop_loss_percent rp)).
Proof.
  split; eexists; (split; [reflexivity|]); cbn; intros [_ H]; revert H;
    apply Qlt_not_le; reflexivity.
Qed.

(** C10, amended. Constructing [RiskParameters] raises a validation error
    if and only if a passed [max_position_size] or [max_risk_per_trade]
    lies outside (0, 0.10]; the other fields are stored as passed.  An
    accepted construction has both validated fields inside the bounds. *)
Theorem risk_parameters_validation (kw : RiskParametersArgs) :
  ((exists e, RiskParameters_init kw = Raise e) <->
   (exists v,
       (arg_max_position_size kw = Some v \/ arg_max_risk_per_trade kw = Some v) /\
       ~ in_bounds v)) /\
  (forall rp,
      RiskParameters_init kw = Ok rp ->
      in_bounds (max_position_size rp) /\
      in_bounds (max_risk_per_trade rp) /\
      stop_loss_percent rp = plain_field (arg_stop_loss_percent kw) 0.02 /\
      take_profit_percent rp = plain_field (arg_take_profit_percent kw) 0.05 /\
      max_correlation rp = plain_field (arg_max_correlation kw) 0.7).
Proof.
  assert (Hdef1 : in_bounds 0.02) by (split; reflexivity || discriminate).
  assert (Hdef2 : in_bounds 0.01) by (split; reflexivity || discriminate).
  unfold RiskParameters_init, validated_field.
  destruct (arg_max_position_size kw) as [a|] eqn:Ea;
    destruct (arg_max_risk_per_trade kw) as [b|] eqn:Eb.
  all: try (destruct (in_bounds_dec a) as [Ha|Ha];
            [rewrite (validate_percentages_ok a Ha)
            |rewrite (validate_percentages_raise a Ha)]).
  all: try (destruct (in_bounds_dec b) as [Hb|Hb];
            [rewrite (validate_percentages_ok b Hb)
            |rewrite (validate_percentages_raise b Hb)]).
  all: cbn [bind]; split;
    [ split;
      [ intros [e He]; try discriminate;
        first [ exists a; split; [now left | assumption]
              | exists b; split; [now right | assumption] ]
      | intros (v & [Hv | Hv] & Hn); try discriminate;
        try (injection Hv as <-; contradiction); eauto ]
    | intros rp Hrp; try discriminate; injection Hrp as <-; cbn; auto ].
Qed.

Ltac break_check :=
  match goal with
  | |- context [if ?c then _ else _] => destruct c
  end.

Ltac keep_rejection H :=
  first [ exact H
        | destruct H as (? & ? & ? & ? & ?); repeat split; cbn; assumption ].

Lemma check_risk_per_trade_keeps m sd rp v :
  rejected_for_size m v -> rejected_for_size m (check_risk_per_trade sd rp v).
Proof. unfold check_risk_per_trade. intros H. repeat break_check; keep_rejection H. Qed.

Lemma check_daily_trades_keeps m self rp v :
  rejected_for_size m v -> rejected_for_size m (check_daily_trades self rp v).
Proof. unfold check_daily_trades. intros H. repeat break_check; keep_rejection H. Qed.

Lemma check_open_positions_keeps m self rp v :
  rejected_for_size m v -> rejected_for_size m (check_open_positions self rp v).
Proof. unfold check_open_positions. intros H. repeat break_check; keep_rejection H. Qed.

Lemma hard_checks_oversized self sd rp p :
  sd_position_size_percent sd = Some p ->
  max_position_size rp < p ->
  rejected_for_size (max_position_size rp) (hard_checks self sd rp).
Proof.
  intros Hp Hlt. unfold hard_checks, check_liquidity, check_market_hours,
    check_correlation. cbn [negb _check_liquidity _check_market_hours _check_correlation].
  apply check_open_positions_keeps, check_daily_trades_keeps,
    check_risk_per_trade_keeps.
  unfold check_position_size. rewrite Hp. cbn [get].
  apply Qlt_bool_iff in Hlt. rewrite Hlt. repeat split.
Qed.

(** C5. A candidate with position size 0.08 validated against a maximum of
    0.02 is rejected: [is_valid] and [position_size_check_passed] are
    false, the adjusted position size is the maximum, the error list
    starts with the position-size message, and no stop-loss or take-profit
    adjustment is made: the call does not validate the candidate again with
    the adjusted size. *)
Theorem oversized_position_rejected
    (self : RiskManager) (signal_data : SignalData) (risk_params : RiskParameters)
    (p : Q) :
  sd_position_size_percent signal_data = Some p ->
  p == 0.08 ->
  max_position_size risk_params == 0.02 ->
  is_valid (validate_signal self signal_data risk_params) = false /\
  position_size_check_passed (validate_signal self signal_data risk_params) = false /\
  (exists a,
      adjusted_position_size (validate_signal self signal_data risk_params) = Some a /\
      a == 0.02) /\
  adjusted_stop_loss (validate_signal self signal_data risk_params) = None /\
  adjusted_take_profit (validate_signal self signal_data risk_params) = None.
Proof.
  intros Hp H8 H2.
  assert (Hlt : max_position_size risk_params < p).
  { rewrite H8, H2. reflexivity. }
  destruct (hard_checks_oversized self signal_data risk_params p Hp Hlt)
    as (Hv & Hc & Ha & Hs & Ht).
  unfold validate_signal. rewrite Hv. cbn.
  repeat split; try assumption.
  exists (max_position_size risk_params). split; assumption.
Qed.

(** The theorem at the oversized candidate and the default parameters. *)
Lemma oversized_position_rejected_witness :
  is_valid (validate_signal init oversized_candidate default_risk_parameters) = false /\
  adjusted_position_size (validate_signal init oversized_candidate default_risk_parameters)
    = Some 0.02.
Proof.
  destruct (oversized_position_rejected init oversized_candidate
              default_risk_parameters 0.08 eq_refl (Qeq_refl _) (Qeq_refl _))
    as (Hv & _).
  split; [exact Hv | reflexivity].
Defined.

(** An attribute named [..._atr_multiplier] is not a field of
    [RiskParameters]. *)
Lemma no_atr_multiplier (rp : RiskParameters) :
  RiskParameters_getattr rp "stop_loss_atr_multiplier" = Raise AttributeError /\
  RiskParameters_getattr rp "take_profit_atr_multiplier" = Raise AttributeError.
Proof. split; reflexivity. Qed.

Lemma apply_risk_adjustments_id v sd rp :
  _apply_risk_adjustments v sd rp = v.
Proof.
  unfold _apply_risk_adjustments, adjust_stop_loss, adjust_take_profit.
  destruct (no_atr_multiplier rp) as [-> ->]. cbn [bind].
  repeat break_check; reflexivity.
Qed.

(** C6, on the code. [_apply_risk_adjustments] reads
    [risk_params.stop_loss_atr_multiplier] and
    [risk_params.take_profit_atr_multiplier], which [RiskParameters] does
    not declare; the attribute error is caught and logged, so the
    adjustment changes nothing: no validation ever carries an adjusted
    stop-loss or take-profit.  The long candidate (entry 100, ATR 2) passes
    every hard check under the default parameters and still gets none. *)
Theorem atr_adjustment_never_applied :
  (forall (self : RiskManager) (signal_data : SignalData) (risk_params : RiskParameters),
      adjusted_stop_loss (validate_signal self signal_data risk_params) = None /\
      adjusted_take_profit (validate_signal self signal_data risk_params) = None) /\
  is_valid (validate_signal init long_candidate default_risk_parameters) = true /\
  truthy (atr_of long_candidate) = true /\
  adjusted_stop_loss (validate_signal init long_candidate default_risk_parameters) = None /\
  adjusted_take_profit (validate_signal init long_candidate default_risk_parameters) = None.
Proof.
  split; [|repeat split; reflexivity].
  intros self sd rp. unfold validate_signal.
  assert (H : adjusted_stop_loss (hard_checks self sd rp) = None /\
              adjusted_take_profit (hard_checks self sd rp) = None).
  { unfold hard_checks, check_liquidity, check_market_hours, check_correlation,
      check_open_positions, check_daily_trades, check_risk_per_trade,
      check_position_size.
    cbn [negb _check_liquidity _check_market_hours _check_correlation].
    repeat break_check; split; reflexivity. }
  destruct (is_valid (hard_checks self sd rp));
    [rewrite apply_risk_adjustments_id|]; exact H.
Qed.

End RiskFacts.

(* ===================================================================== *)
(** * Properties of the deduplication cache ([_process_signal])           *)
(* ===================================================================== *)

Module EngineFacts.
Import Py Signals IAEngine RiskReference EngineReference.
Local Open Scope Z_scope.

(** After caching, the key is looked up against the instant just stored. *)
Lemma is_cached_after_cache now current_time self key t :
  current_time - now <= timedelta_seconds (cache_ttl self) ->
  _is_signal_cached t (_cache_signal now current_time self key) key
  = bool_decide (t - now < timedelta_seconds (cache_ttl self)).
Proof.
  intros Hfresh. unfold _is_signal_cached, _cache_signal. cbn.
  assert (Hlook : filter (fun kv : string * Z =>
                     ~ (current_time - kv.2 > timedelta_seconds (cache_ttl self)))
                    (<[key := now]> (signal_cache self)) !! key = Some now).
  { apply map_lookup_filter_Some. split; [apply lookup_insert_eq|]. cbn. lia. }
  now rewrite Hlook.
Qed.

(** The read of line 313 raises on every verdict, and the handler of line
    361 returns: the engine comes back as it went in. *)
Lemma process_signal_unchanged clk self risk_manager d ticker exchange :
  _process_signal clk self risk_manager d ticker exchange = self.
Proof.
  unfold _process_signal.
  destruct (sd_signal_type d) as [label|]; cbn; [|reflexivity].
  destruct (_is_signal_cached _ _ _); reflexivity.
Qed.

(** C4, on the code. [_process_signal] reads the verdict of the risk
    manager by key (line 313), which a [SignalValidation] does not
    support: the [TypeError] is caught at line 361 and the call returns
    before anything is stored, published or cached.  So the engine is
    returned unchanged for every candidate, and two submissions of the long
    candidate for the same ticker (valid for the risk manager, outside any
    cooldown) lead to no publication, whether the second comes 10 seconds
    or 300 seconds after the first, where the claim expects one and
    two. *)
Theorem process_signal_never_publishes :
  (forall (clk : Clock) (self : Engine) (risk_manager : RiskManager.RiskManager)
          (signal_data : SignalData) (ticker : string) (exchange : option string),
      _process_signal clk self risk_manager signal_data ticker exchange = self) /\
  is_valid (RiskManager.validate_signal RiskManager.init
              (enrich init "AAPL" None long_candidate) default_risk_parameters) = true /\
  _is_signal_cached (t_check (clock_at 0)) init
    (make_cache_key "AAPL" None "BUY") = false /\
  published (_process_signal (clock_at 0) init RiskManager.init
               long_candidate "AAPL" None) = [] /\
  published
    (_process_signal (clock_at 10)
       (_process_signal (clock_at 0) init RiskManager.init long_candidate "AAPL" None)
       RiskManager.init long_candidate "AAPL" None) = [] /\
  published
    (_process_signal (clock_at 300)
       (_process_signal (clock_at 0) init RiskManager.init long_candidate "AAPL" None)
       RiskManager.init long_candidate "AAPL" None) = [].
Proof.
  split; [intros; apply process_signal_unchanged|].
  split; [vm_compute; reflexivity|].
  split; [vm_compute; reflexivity|].
  rewrite !process_signal_unchanged. repeat split; reflexivity.
Qed.

End EngineFacts.

(* ===================================================================== *)
(** * Further properties of the prediction client                         *)
(* ===================================================================== *)

Module ClientExtra.
Import Py DeepSeekClient Reference Tanh PredictionFacts CandidateFacts ClientMore.
Local Open Scope R_scope.

Lemma tanh_0 : tanh 0 = 0.
Proof. unfold tanh. rewrite sinh_0. lra. Qed.

Lemma tanh_nonneg (x : R) : 0 <= x -> 0 <= tanh x.
Proof. intros H. rewrite <- tanh_0. now apply tanh_mono. Qed.

Lemma tanh_nonpos (x : R) : x <= 0 -> tanh x <= 0.
Proof. intros H. rewrite <- tanh_0. now apply tanh_mono. Qed.

Lemma tanh_0_7_lower : 0.3 < tanh 0.7.
Proof.
  rewrite tanh_exp. pose proof (exp_ineq1_le (2 * 0.7)) as H.
  assert (Hq : 2 / (exp (2 * 0.7) + 1) <= 2 / 3.4); [|lra].
  unfold Rdiv. apply Rmult_le_compat_l; [lra|].
  apply Rinv_le_contravar; lra.
Qed.

Lemma last_item_nil_iff {A : Type} (l : list A) :
  (exists e, last_item l = Raise e) <-> l = [].
Proof.
  split.
  - intros [e He]. induction l as [|x [|y l] IH]; [reflexivity|discriminate|].
    cbn in He. cbn in IH. specialize (IH He). discriminate.
  - intros ->. now exists IndexError.
Qed.

Lemma last_item_ok {A : Type} (l : list A) :
  l <> [] -> exists x, last_item l = Ok x.
Proof.
  intros Hl. destruct (last_item l) as [x|e] eqn:E; [now exists x|].
  exfalso. apply Hl. apply last_item_nil_iff. now exists e.
Qed.

Lemma last_item_in {A : Type} (l : list A) (x : A) :
  last_item l = Ok x -> In x l.
Proof.
  induction l as [|y [|z l] IH]; intros H; [discriminate| |].
  - injection H as ->. now left.
  - right. apply IH. exact H.
Qed.

(** The entries of a candidate that do not depend on the ATR. *)
Lemma create_signal_fields prediction data tf s :
  _create_signal prediction data tf = Some s ->
  signal_type s = p_signal_type prediction /\
  signal_type s <> HOLD /\
  confidence s = p_confidence prediction /\
  score s = p_score prediction /\
  timeframe s = tf /\
  last_item (close data) = Ok (entry_price s).
Proof.
  unfold _create_signal, try_except. intros H.
  destruct (p_signal_type prediction) eqn:Hlabel; try discriminate;
    (destruct (last_item (close data)) as [price|]; cbn [bind] in H; [|discriminate];
     destruct (latest_atr data) as [a|]; cbn [bind] in H; [|discriminate];
     injection H as <-; cbn; repeat split; auto; discriminate).
Qed.



(** X2. [_create_signal] returns no candidate exactly when the
    classification is HOLD, the frame has no close, or its ['atr'] column
    is empty; a frame too short for the 14-bar rolling deviation still
    gives a candidate (with NaN levels). *)
Theorem create_signal_none_iff
    (prediction : Prediction) (data : DataFrame) (tf : string) :
  _create_signal prediction data tf = None <->
  p_signal_type prediction = HOLD \/ close data = [] \/ atr data = Some [].
Proof.
  unfold _create_signal, try_except, latest_atr, rolling_std_last.
  destruct (close data) as [|c cs] eqn:Hc.
  - split; [auto|]. intros _. destruct (p_signal_type prediction); reflexivity.
  - destruct (last_item_ok (c :: cs)) as [price Hp]; [discriminate|].
    rewrite Hp. cbn [bind].
    assert (Hr : exists fb,
               (if (length (c :: cs) <? 14)%nat then Ok NaN
                else Ok (Fin (sqrt
                  (sum (map (fun x => (x - mean (last_n 14 (c :: cs)))
                                      * (x - mean (last_n 14 (c :: cs))))
                          (last_n 14 (c :: cs))) / (INR 14 - 1))))) = Ok fb).
    { destruct (_ <? _)%nat; eauto. }
    destruct Hr as [fb ->]. cbn [bind].
    destruct (atr data) as [[|a col]|] eqn:Ha.
    + split; [auto|]. intros _. destruct (p_signal_type prediction); reflexivity.
    + destruct (last_item_ok (a :: col)) as [x Hx]; [discriminate|].
      rewrite Hx. cbn [bind].
      destruct (p_signal_type prediction); split; intros H;
        try discriminate; auto;
        destruct H as [H|[H|H]]; discriminate.
    + cbn [bind].
      destruct (p_signal_type prediction); split; intros H;
        try discriminate; auto;
        destruct H as [H|[H|H]]; discriminate.
Qed.

(** What the aggregator keeps of a list of candidates of one direction. *)
Definition pick (l : list Signal) : list Signal :=
  match max_by confidence l with
  | Some b => [b]
  | None => []
  end.

Lemma aggregate_pick (signals : list Signal) :
  _aggregate_signals signals = pick (buy_signals signals) ++ pick (sell_signals signals).
Proof. destruct signals; reflexivity. Qed.

Lemma max_from_in {A : Type} (key : A -> R) (l : list A) (best : A) :
  In (max_from key best l) (best :: l).
Proof.
  revert best. induction l as [|x l IH]; intros best; cbn [max_from]; [now left|].
  destruct (Rgt_dec (key x) (key best)).
  - right. apply IH.
  - destruct (IH best) as [H|H]; [now left | right; now right].
Qed.

Lemma pick_cases (l : list Signal) :
  pick l = [] \/ exists b, pick l = [b] /\ In b l.
Proof.
  destruct l as [|x l]; [now left|]. right.
  exists (max_from confidence x l). split; [reflexivity|]. apply max_from_in.
Qed.

Lemma pick_singleton (b : Signal) : pick [b] = [b].
Proof. reflexivity. Qed.

Lemma in_buy_signals s l :
  In s (buy_signals l) <-> In s l /\ is_bullish (signal_type s) = true.
Proof. unfold buy_signals. rewrite filter_In, contains_buy. reflexivity. Qed.

Lemma in_sell_signals s l :
  In s (sell_signals l) <-> In s l /\ is_bearish (signal_type s) = true.
Proof. unfold sell_signals. rewrite filter_In, contains_sell. reflexivity. Qed.

Lemma aggregate_signals_subset signals s :
  In s (_aggregate_signals signals) -> In s signals.
Proof.
  rewrite aggregate_pick. intros Hin.
  apply in_app_or in Hin as [Hin|Hin].
  - destruct (pick_cases (buy_signals signals)) as [Hp | (b & Hp & Hb)];
      rewrite Hp in Hin; [destruct Hin|].
    destruct Hin as [<-|[]]. now apply in_buy_signals in Hb.
  - destruct (pick_cases (sell_signals signals)) as [Hp | (b & Hp & Hb)];
      rewrite Hp in Hin; [destruct Hin|].
    destruct Hin as [<-|[]]. now apply in_sell_signals in Hb.
Qed.

(** X3. The aggregator only returns candidates it was given, never one
    classified HOLD, and aggregating its own result changes nothing. *)
Theorem aggregate_signals_idempotent (signals : list Signal) :
  (forall s, In s (_aggregate_signals signals) ->
             In s signals /\ signal_type s <> HOLD) /\
  _aggregate_signals (_aggregate_signals signals) = _aggregate_signals signals.
Proof.
  rewrite !aggregate_pick.
  destruct (pick_cases (buy_signals signals)) as [Hb | (b & Hb & Hbin)];
    destruct (pick_cases (sell_signals signals)) as [Hs | (c & Hs & Hcin)];
    rewrite Hb, Hs.
  - split; [intros s []|reflexivity].
  - apply in_sell_signals in Hcin as [Hin Hbear].
    split.
    + intros s [<-|[]]. split; [assumption|]. destruct (signal_type c); discriminate.
    + cbn [app]. unfold buy_signals, sell_signals. cbn [List.filter].
      rewrite contains_buy, contains_sell, Hbear.
      destruct (signal_type c); try discriminate; reflexivity.
  - apply in_buy_signals in Hbin as [Hin Hbull].
    split.
    + intros s [<-|[]]. split; [assumption|]. destruct (signal_type b); discriminate.
    + cbn [app]. unfold buy_signals, sell_signals. cbn [List.filter].
      rewrite contains_buy, contains_sell, Hbull.
      destruct (signal_type b); try discriminate; reflexivity.
  - apply in_buy_signals in Hbin as [Hbi Hbull].
    apply in_sell_signals in Hcin as [Hci Hbear].
    split.
    + intros s [<-|[<-|[]]]; (split; [assumption|]).
      * destruct (signal_type b); discriminate.
      * destruct (signal_type c); discriminate.
    + cbn [app]. unfold buy_signals, sell_signals. cbn [List.filter].
      rewrite !contains_buy, !contains_sell, Hbull, Hbear.
      destruct (signal_type b); try discriminate;
        destruct (signal_type c); try discriminate; reflexivity.
Qed.

Lemma tanh_attenuated (s : R) :
  Rabs (tanh (s * 0.7)) <= Rabs (tanh s) /\ 0 <= tanh (s * 0.7) * tanh s.
Proof.
  destruct (Rle_dec 0 s) as [Hs|Hs].
  - pose proof (tanh_nonneg s Hs). pose proof (tanh_nonneg (s * 0.7) ltac:(lra)).
    pose proof (tanh_mono (s * 0.7) s ltac:(lra)).
    rewrite !Rabs_right by lra. split; [lra|nra].
  - pose proof (tanh_nonpos s ltac:(lra)). pose proof (tanh_nonpos (s * 0.7) ltac:(lra)).
    pose proof (tanh_mono s (s * 0.7) ltac:(lra)).
    rewrite !Rabs_left1 by lra. split; [lra|nra].
Qed.

(** X4. A market context never raises the confidence of a prediction and
    never turns its direction: whatever the context, the confidence is at
    most the one obtained without context, and the two scores do not have
    opposite signs. *)
Theorem market_context_never_raises_confidence
    (cfg : Config) (features : matrix) (tf : string) (ctx : option MarketContext) :
  p_confidence (_run_prediction cfg features tf ctx)
    <= p_confidence (_run_prediction cfg features tf None) /\
  0 <= p_score (_run_prediction cfg features tf ctx)
       * p_score (_run_prediction cfg features tf None).
Proof.
  destruct (read_features features) as [f|e] eqn:Hread.
  - rewrite !(run_prediction_ok cfg features tf _ f Hread). cbn.
    unfold raw_score. cbn [market_adjust].
    destruct (market_adjust_cases ctx (0 + trend_term (f_trend f) + rsi_term (f_rsi f)))
      as [-> | ->].
    + split; [lra|]. apply Rle_0_sqr.
    + apply tanh_attenuated.
  - rewrite !(run_prediction_fallback cfg features tf _ e Hread). cbn. lra.
Qed.

Lemma run_prediction_confidence cfg features tf ctx :
  p_confidence (_run_prediction cfg features tf ctx)
  = Rabs (p_score (_run_prediction cfg features tf ctx)).
Proof.
  destruct (read_features features) as [f|e] eqn:Hread.
  - now rewrite (run_prediction_ok cfg features tf ctx f Hread).
  - rewrite (run_prediction_fallback cfg features tf ctx e Hread). cbn.
    now rewrite Rabs_R0.
Qed.

(** What every candidate appended by the loop of [predict_signals]
    satisfies. *)
Definition passed (cfg : Config) (data : list (string * option DataFrame))
    (s : Signal) : Prop :=
  confidence s >= confidence_threshold cfg /\
  signal_type s <> HOLD /\
  confidence s = Rabs (score s) /\
  exists df,
    In (timeframe s, Some df) data /\
    (50 <= df_len df)%nat /\
    last_item (close df) = Ok (entry_price s).

Section Loop.
Variable normalize_timeseries : DataFrame -> result matrix.

(** One turn of the loop: it raises, or goes on with the accumulator as
    it was or with one candidate more. *)
Lemma predict_loop_step cfg ctx tf (o : option DataFrame) rest signals :
  (exists e, predict_loop normalize_timeseries cfg ctx ((tf, o) :: rest) signals = Raise e /\
             exists df, o = Some df /\ (50 <= df_len df)%nat /\
                        normalize_timeseries df = Raise e) \/
  predict_loop normalize_timeseries cfg ctx ((tf, o) :: rest) signals
    = predict_loop normalize_timeseries cfg ctx rest signals \/
  (exists s df,
      predict_loop normalize_timeseries cfg ctx ((tf, o) :: rest) signals
        = predict_loop normalize_timeseries cfg ctx rest (signals ++ [s]) /\
      o = Some df /\ (50 <= df_len df)%nat /\
      confidence s >= confidence_threshold cfg /\
      signal_type s <> HOLD /\
      confidence s = Rabs (score s) /\
      timeframe s = tf /\
      last_item (close df) = Ok (entry_price s)).
Proof.
  cbn [predict_loop]. destruct o as [df|]; [|right; now left].
  destruct (df_len df <? 50)%nat eqn:Hlen; [right; now left|].
  apply Nat.ltb_ge in Hlen.
  destruct (normalize_timeseries df) as [m|e] eqn:Hn; cbn [bind].
  - destruct (Rge_dec _ _) as [Hge|_]; [|right; now left].
    destruct (_create_signal _ df tf) as [s|] eqn:Hs; [|right; now left].
    right; right. exists s, df.
    destruct (create_signal_fields _ _ _ _ Hs) as (_ & Hh & Hc & Hsc & Htf & Hp).
    pose proof (run_prediction_confidence cfg m tf ctx) as Habs.
    repeat split; auto.
    + now rewrite Hc.
    + now rewrite Hc, Hsc.
  - left. exists e. split; [reflexivity|]. now exists df.
Qed.

Lemma predict_loop_passed cfg ctx data :
  forall items signals r,
    (forall it, In it items -> In it data) ->
    Forall (passed cfg data) signals ->
    predict_loop normalize_timeseries cfg ctx items signals = Ok r ->
    Forall (passed cfg data) r.
Proof.
  induction items as [|[tf o] rest IH]; intros signals r Hsub Hacc Hr.
  - cbn in Hr. now injection Hr as <-.
  - destruct (predict_loop_step cfg ctx tf o rest signals)
      as [(e & He & _) | [Hsame | (s & df & Hnext & -> & Hlen & Hc & Hh & Ha & Htf & Hp)]].
    + congruence.
    + rewrite Hsame in Hr. eapply IH; eauto. intros it Hit. apply Hsub. now right.
    + rewrite Hnext in Hr. eapply IH; [| |exact Hr].
      * intros it Hit. apply Hsub. now right.
      * apply Forall_app. split; [assumption|]. constructor; [|constructor].
        repeat split; auto. exists df. rewrite Htf.
        split; [apply Hsub; now left|]. now split.
Qed.

Lemma predict_loop_raises cfg ctx tf df e :
  (50 <= df_len df)%nat ->
  normalize_timeseries df = Raise e ->
  forall items signals,
    In (tf, Some df) items ->
    exists e', predict_loop normalize_timeseries cfg ctx items signals = Raise e'.
Proof.
  intros Hlen Hn. induction items as [|[tf' o] rest IH]; intros signals Hin; [destruct Hin|].
  destruct Hin as [Heq|Hin].
  - injection Heq as -> ->. cbn [predict_loop].
    apply Nat.ltb_ge in Hlen. rewrite Hlen, Hn. cbn. now exists e.
  - destruct (predict_loop_step cfg ctx tf' o rest signals)
      as [(e' & He & _) | [Hsame | (s & df' & Hnext & _)]].
    + now exists e'.
    + rewrite Hsame. now apply IH.
    + rewrite Hnext. now apply IH.
Qed.

Lemma predict_loop_skips cfg ctx :
  forall items signals,
    Forall (fun it => match snd it with
                      | None => True
                      | Some df => (df_len df < 50)%nat
                      end) items ->
    predict_loop normalize_timeseries cfg ctx items signals = Ok signals.
Proof.
  induction items as [|[tf o] rest IH]; intros signals Hall; [reflexivity|].
  inversion Hall as [|? ? Hhd Htl]; subst. cbn [predict_loop].
  destruct o as [df|]; [|now apply IH].
  cbn in Hhd. apply Nat.ltb_lt in Hhd. rewrite Hhd. now apply IH.
Qed.

End Loop.

(** X5. Whatever the thresholds, the normaliser and the input, every
    signal returned by [predict_signals] has a confidence at or above the
    configured floor, equal to the absolute value of its score, a
    classification other than HOLD, and belongs to a frame of the input
    with at least 50 bars whose last close is its entry price. *)
Theorem predict_signals_output
    (normalize_timeseries : DataFrame -> result matrix) (cfg : Config)
    (timeseries_data : list (string * option DataFrame))
    (ctx : option MarketContext) (s : Signal) :
  In s (predict_signals normalize_timeseries cfg timeseries_data ctx) ->
  confidence s >= confidence_threshold cfg /\
  signal_type s <> HOLD /\
  confidence s = Rabs (score s) /\
  exists df,
    In (timeframe s, Some df) timeseries_data /\
    (50 <= df_len df)%nat /\
    last_item (close df) = Ok (entry_price s).
Proof.
  unfold predict_signals, try_except. intros Hin.
  destruct (predict_loop _ _ _ _ _) as [signals|e] eqn:Hloop; cbn [bind] in Hin;
    [|destruct Hin].
  pose proof (predict_loop_passed normalize_timeseries cfg ctx timeseries_data
                timeseries_data [] signals (fun _ H => H)
                ltac:(constructor) Hloop) as Hall.
  pose proof (aggregate_signals_subset signals s Hin) as Hs.
  rewrite List.Forall_forall in Hall. exact (Hall s Hs).
Qed.

(** With the lower thresholds of [eager_config] the end-to-end scenario
    (RSI 25, close change +0.002, VIX 18) does produce one BUY signal. *)
Lemma eager_scenario :
  exists s,
    predict_signals (fun _ => Ok scenario_features) eager_config
      [("1h"%string, Some scenario_frame)] scenario_context = [s] /\
    signal_type s = BUY /\
    score s = tanh 0.7 /\
    entry_price s = 100.
Proof.
  destruct read_scenario as (f & Hread & Hr & Ht).
  assert (Hraw : raw_score scenario_context f = 0.7).
  { unfold raw_score, scenario_context, market_adjust. cbn.
    rewrite Hr, Ht.
    rewrite (proj1 (trend_term_cases 0.002)) by lra.
    rewrite (proj1 (rsi_term_cases 25)) by lra.
    destruct (Rgt_dec 18 30); lra. }
  pose proof tanh_0_7 as Hup. pose proof tanh_0_7_lower as Hlow.
  unfold predict_signals. cbn [predict_loop].
  change (df_len scenario_frame <? 50)%nat with false. cbn [bind].
  rewrite (run_prediction_ok eager_config scenario_features "1h" scenario_context f Hread).
  rewrite Hraw. cbn [p_confidence].
  destruct (Rge_dec (Rabs (tanh 0.7)) (confidence_threshold eager_config)) as [_|Hn].
  2:{ exfalso. apply Hn. cbn. rewrite Rabs_right; lra. }
  assert (Hc : classify eager_config (tanh 0.7) = BUY).
  { unfold classify. cbn.
    destruct (Rgt_dec (tanh 0.7) 0.85); [lra|].
    destruct (Rgt_dec (tanh 0.7) 0.3); [reflexivity|lra]. }
  rewrite Hc. unfold _create_signal. cbn [p_signal_type try_except].
  assert (Hp : last_item (close scenario_frame) = Ok 100) by reflexivity.
  assert (Ha : latest_atr scenario_frame = Ok (Fin 2)) by reflexivity.
  rewrite Hp, Ha. cbn [bind predict_loop try_except app].
  eexists. split; [reflexivity|]. repeat split; reflexivity.
Qed.

(** The theorem at that signal. *)
Lemma predict_signals_output_witness :
  exists s,
    In s (predict_signals (fun _ => Ok scenario_features) eager_config
            [("1h"%string, Some scenario_frame)] scenario_context) /\
    signal_type s = BUY /\
    confidence s >= 0.3.
Proof.
  destruct eager_scenario as (s & Heq & Hl & _).
  assert (Hin : In s (predict_signals (fun _ => Ok scenario_features) eager_config
                        [("1h"%string, Some scenario_frame)] scenario_context))
    by (rewrite Heq; now left).
  exists s. split; [exact Hin|]. split; [exact Hl|].
  exact (proj1 (predict_signals_output _ _ _ _ s Hin)).
Defined.

(** X6. When the normaliser raises on one frame of at least 50 bars,
    [predict_signals] returns the empty list: the candidates of the other
    timeframes of the pass are dropped with it. *)
Theorem predict_signals_normaliser_error
    (normalize_timeseries : DataFrame -> result matrix) (cfg : Config)
    (timeseries_data : list (string * option DataFrame))
    (ctx : option MarketContext) (tf : string) (df : DataFrame) (e : exn) :
  In (tf, Some df) timeseries_data ->
  (50 <= df_len df)%nat ->
  normalize_timeseries df = Raise e ->
  predict_signals normalize_timeseries cfg timeseries_data ctx = [].
Proof.
  intros Hin Hlen Hn. unfold predict_signals.
  destruct (predict_loop_raises normalize_timeseries cfg ctx tf df e Hlen Hn
              timeseries_data [] Hin) as [e' ->].
  reflexivity.
Qed.

(** A normaliser that accepts the scenario frame and fails on the flat
    one (as [normalize_timeseries] does on a frame that lacks a column). *)
Definition picky_normalizer (df : DataFrame) : result matrix :=
  match atr df with
  | Some _ => Ok scenario_features
  | None => Raise ValueError
  end.

Definition long_flat_frame : DataFrame := {| close := repeat 100 50; atr := None |}.

(** The theorem on a one-hour frame that normalises and a four-hour
    frame that does not. *)
Lemma predict_signals_normaliser_error_witness :
  predict_signals picky_normalizer eager_config
    [("1h"%string, Some scenario_frame); ("4h"%string, Some long_flat_frame)]
    scenario_context = [].
Proof.
  apply (predict_signals_normaliser_error picky_normalizer eager_config _ _
           "4h" long_flat_frame ValueError).
  - right. now left.
  - cbn. lia.
  - reflexivity.
Defined.

(** X7. Frames that are missing or shorter than 50 bars are skipped
    before normalisation: with only such frames [predict_signals]
    returns the empty list, even with a normaliser that always raises. *)
Theorem predict_signals_short_frames
    (normalize_timeseries : DataFrame -> result matrix) (cfg : Config)
    (timeseries_data : list (string * option DataFrame))
    (ctx : option MarketContext) :
  Forall (fun it => match snd it with
                    | None => True
                    | Some df => (df_len df < 50)%nat
                    end) timeseries_data ->
  predict_signals normalize_timeseries cfg timeseries_data ctx = [].
Proof.
  intros Hall. unfold predict_signals.
  now rewrite (predict_loop_skips normalize_timeseries cfg ctx timeseries_data [] Hall).
Qed.

Lemma predict_signals_short_frames_witness :
  predict_signals (fun _ => Raise ValueError) eager_config
    [("1m"%string, None); ("1h"%string, Some flat_frame)] scenario_context = [].
Proof.
  apply predict_signals_short_frames.
  constructor; [exact I|]. constructor; [cbn; lia|]. constructor.
Defined.

(** X8. With thresholds in their natural order (strong sell <= sell <= 0
    <= buy <= strong buy) the classification agrees with the sign of the
    score: a bullish label needs a positive score, a bearish label a
    negative one, and HOLD is exactly the band between the sell and the
    buy threshold, both included. *)
Theorem classification_matches_sign (cfg : Config) (s : R) :
  ordered cfg ->
  (is_bullish (classify cfg s) = true <-> th_buy cfg < s) /\
  (is_bearish (classify cfg s) = true <-> s < th_sell cfg) /\
  (classify cfg s = HOLD <-> th_sell cfg <= s <= th_buy cfg) /\
  (is_bullish (classify cfg s) = true -> 0 < s) /\
  (is_bearish (classify cfg s) = true -> s < 0).
Proof.
  intros (H1 & H2 & H3 & H4). unfold classify.
  destruct (Rgt_dec s (th_strong_buy cfg));
    [|destruct (Rgt_dec s (th_buy cfg));
      [|destruct (Rlt_dec s (th_strong_sell cfg));
        [|destruct (Rlt_dec s (th_sell cfg))]]];
    cbn; repeat split; intros; try discriminate; try lra.
Qed.

Lemma classification_matches_sign_witness :
  is_bullish (classify default_config 0.9) = true /\ 0 < 0.9.
Proof.
  assert (Hord : ordered default_config) by (unfold ordered; cbn; lra).
  destruct (classification_matches_sign default_config 0.9 Hord)
    as (Hb & _ & _ & Hpos & _).
  assert (Hbull : is_bullish (classify default_config 0.9) = true)
    by (apply Hb; cbn; lra).
  split; [exact Hbull | exact (Hpos Hbull)].
Defined.

Lemma clip_scale_range (x : R) : -1 <= clip_scale x <= 1.
Proof. unfold clip_scale, clip. repeat break_if; lra. Qed.

(** X9. After the last step of [normalize_timeseries] every feature lies
    in [[-1, 1]]. *)
Theorem finish_features_bounded (raw : matrix) :
  Forall (Forall (fun x => -1 <= x <= 1)) (finish_features raw).
Proof.
  unfold finish_features. apply List.Forall_forall. intros row Hrow.
  apply in_map_iff in Hrow as (r & <- & _).
  apply List.Forall_forall. intros x Hx.
  apply in_map_iff in Hx as (y & <- & _). apply clip_scale_range.
Qed.

Lemma last_item_map {A B : Type} (g : A -> B) (l : list A) :
  last_item (map g l) = match last_item l with
                        | Ok x => Ok (g x)
                        | Raise e => Raise e
                        end.
Proof.
  induction l as [|x [|y l] IH]; [reflexivity|reflexivity|].
  cbn [map last_item] in *. exact IH.
Qed.

Lemma item_map {A B : Type} (g : A -> B) (l : list A) (i : nat) :
  item (map g l) i = match item l i with
                     | Ok x => Ok (g x)
                     | Raise e => Raise e
                     end.
Proof.
  unfold item. rewrite nth_error_map. now destruct (nth_error l i).
Qed.

(** X10. The RSI column goes through the same clipping as the price
    changes: the RSI that [_run_prediction] reads from a normalised array
    with at least six columns is [clip_scale r * 100] for the RSI [r] of
    the last bar.  So every RSI of 3 or more is read as 100 and scored as
    overbought (-0.4), and the oversold term (+0.4) needs an RSI below
    0.9. *)
Theorem normalised_rsi_saturates
    (raw : matrix) (first row : list R) (r : R) (f : FeatureSummary) :
  item raw 0 = Ok first ->
  (5 < length first)%nat ->
  last_item raw = Ok row ->
  item row 5 = Ok r ->
  read_features (finish_features raw) = Ok f ->
  f_rsi f = clip_scale r * 100 /\
  (3 <= r -> f_rsi f = 100 /\ rsi_term (f_rsi f) = - 0.4) /\
  (rsi_term (f_rsi f) = 0.4 -> r < 0.9).
Proof.
  intros Hfirst Hlen Hlast Hr Hread.
  assert (Hrsi : f_rsi f = clip_scale r * 100).
  { unfold read_features, finish_features in Hread.
    rewrite last_item_map, Hlast in Hread. cbn [bind] in Hread.
    destruct (column 3 _) as [closes|]; cbn [bind] in Hread; [|discriminate].
    rewrite item_map, Hfirst in Hread. cbn [bind] in Hread.
    rewrite length_map in Hread.
    apply Nat.ltb_lt in Hlen. rewrite Hlen in Hread.
    rewrite item_map, Hr in Hread. cbn [bind] in Hread.
    now injection Hread as <-. }
  split; [exact Hrsi|]. rewrite Hrsi. unfold clip_scale, clip, rsi_term.
  split.
  - intros H3. repeat break_if; split; lra.
  - repeat break_if; intros H; lra.
Qed.

(** The theorem on a single bar with RSI 25. *)
Lemma normalised_rsi_saturates_witness :
  exists f,
    read_features (finish_features [[0; 0; 0; 0.002; 0; 25]]) = Ok f /\
    f_rsi f = 100 /\
    rsi_term (f_rsi f) = - 0.4.
Proof.
  eexists. split; [reflexivity|].
  apply (normalised_rsi_saturates [[0; 0; 0; 0.002; 0; 25]]
           [0; 0; 0; 0.002; 0; 25] [0; 0; 0; 0.002; 0; 25] 25 _
           eq_refl ltac:(cbn; lia) eq_refl eq_refl eq_refl).
  lra.
Defined.

(** X11. The rationale names the RSI regime and the trend exactly when the
    corresponding term entered the score: oversold with +0.4, overbought
    with -0.4, rising trend with +0.3, falling trend with -0.3.  On the
    fallback path it holds the headline alone. *)
Theorem reasoning_mirrors_score
    (cfg : Config) (features : matrix) (tf : string) (ctx : option MarketContext) :
  match read_features features with
  | Ok f =>
      (In (RsiOversold (f_rsi f))
          (_generate_reasoning (_run_prediction cfg features tf ctx))
       <-> rsi_term (f_rsi f) = 0.4) /\
      (In (RsiOverbought (f_rsi f))
          (_generate_reasoning (_run_prediction cfg features tf ctx))
       <-> rsi_term (f_rsi f) = - 0.4) /\
      (In TrendUp (_generate_reasoning (_run_prediction cfg features tf ctx))
       <-> trend_term (f_trend f) = 0.3) /\
      (In TrendDown (_generate_reasoning (_run_prediction cfg features tf ctx))
       <-> trend_term (f_trend f) = - 0.3)
  | Raise _ =>
      _generate_reasoning (_run_prediction cfg features tf ctx) = [Headline HOLD 0]
  end.
Proof.
  destruct (read_features features) as [f|e] eqn:Hread.
  - rewrite (run_prediction_ok cfg features tf ctx f Hread).
    unfold _generate_reasoning, rsi_term, trend_term. cbn.
    repeat break_if; cbn; repeat split; intros H;
      repeat match goal with
             | H : _ \/ _ |- _ => destruct H
             | H : False |- _ => destruct H
             end;
      try discriminate; try lra; auto.
  - now rewrite (run_prediction_fallback cfg features tf ctx e Hread).
Qed.

End ClientExtra.

(* ===================================================================== *)
(** * Further properties of the risk manager                              *)
(* ===================================================================== *)

Module LedgerFacts.
Import Py Signals RiskManager RiskReference RiskFacts LedgerMore.
Local Open Scope Q_scope.

(** A validation is coherent when it is valid exactly if it lists no
    error. *)
Definition coherent (v : SignalValidation) : Prop :=
  is_valid v = true <-> validation_errors v = [].

Lemma coherent_reject msg v : coherent (reject msg v).
Proof.
  unfold coherent. cbn. split; [discriminate|].
  destruct (validation_errors v); discriminate.
Qed.

Ltac coherent_step H :=
  repeat break_check;
  first [ exact H
        | unfold coherent; cbn; split;
          [ discriminate
          | intros E;
            first [discriminate | apply app_eq_nil in E as [_ E]; discriminate] ] ].

Lemma hard_checks_coherent self sd rp : coherent (hard_checks self sd rp).
Proof.
  unfold hard_checks, check_liquidity, check_market_hours, check_correlation.
  cbn [negb _check_liquidity _check_market_hours _check_correlation].
  assert (H0 : coherent (fresh_validation sd)) by (unfold coherent; cbn; tauto).
  assert (H1 : coherent (check_position_size sd rp (fresh_validation sd))).
  { unfold check_position_size. coherent_step H0. }
  assert (H2 : coherent (check_risk_per_trade sd rp
                           (check_position_size sd rp (fresh_validation sd)))).
  { unfold check_risk_per_trade. coherent_step H1. }
  assert (H3 : coherent (check_daily_trades self rp
                           (check_risk_per_trade sd rp
                              (check_position_size sd rp (fresh_validation sd))))).
  { unfold check_daily_trades. coherent_step H2. }
  unfold check_open_positions. coherent_step H3.
Qed.

(** The verdict of the hard checks as one boolean. *)
Lemma hard_checks_valid self sd rp :
  is_valid (hard_checks self sd rp)
  = negb (Qlt_bool (max_position_size rp) (get (sd_position_size_percent sd) 0))
    && negb (truthy (get (sd_entry_price sd) 0) && truthy (get (sd_stop_loss sd) 0)
             && Qlt_bool (max_risk_per_trade rp)
                  (Qabs (get (sd_entry_price sd) 0 - get (sd_stop_loss sd) 0)
                   / get (sd_entry_price sd) 0))
    && negb (max_daily_trades rp <=? daily_trades_count self)%Z
    && negb (max_open_positions rp <=? Z.of_nat (length (open_positions self)))%Z.
Proof.
  unfold hard_checks, check_liquidity, check_market_hours, check_correlation,
    check_open_positions, check_daily_trades, check_risk_per_trade,
    check_position_size.
  cbn [negb _check_liquidity _check_market_hours _check_correlation].
  destruct (Qlt_bool (max_position_size rp) _);
    destruct (truthy (get (sd_entry_price sd) 0));
    destruct (truthy (get (sd_stop_loss sd) 0)); cbn [andb];
    try destruct (Qlt_bool (max_risk_per_trade rp) _);
    destruct (max_daily_trades rp <=? daily_trades_count self)%Z;
    destruct (max_open_positions rp <=? _)%Z; reflexivity.
Qed.

Lemma validate_signal_hard_checks self sd rp :
  is_valid (validate_signal self sd rp) = is_valid (hard_checks self sd rp) /\
  validation_errors (validate_signal self sd rp)
  = validation_errors (hard_checks self sd rp).
Proof.
  unfold validate_signal.
  destruct (is_valid (hard_checks self sd rp)) eqn:E;
    [rewrite apply_risk_adjustments_id|]; cbn; now rewrite ?E.
Qed.

(** X12. [validate_signal] accepts a candidate exactly when its position
    size does not exceed the maximum, the per-trade risk rule holds (it
    binds only when entry price and stop-loss are both present and not
    zero), the daily trade count is below its limit and so is the number
    of open positions; and the verdict is valid exactly when the list of
    errors is empty. *)
Theorem validate_signal_accepts_iff
    (self : RiskManager) (signal_data : SignalData) (risk_params : RiskParameters) :
  (is_valid (validate_signal self signal_data risk_params) = true <->
   get (sd_position_size_percent signal_data) 0 <= max_position_size risk_params /\
   risk_rule signal_data risk_params /\
   (daily_trades_count self < max_daily_trades risk_params)%Z /\
   (Z.of_nat (length (open_positions self)) < max_open_positions risk_params)%Z) /\
  (is_valid (validate_signal self signal_data risk_params) = true <->
   validation_errors (validate_signal self signal_data risk_params) = []).
Proof.
  destruct (validate_signal_hard_checks self signal_data risk_params) as [-> ->].
  split; [|apply hard_checks_coherent].
  rewrite hard_checks_valid. rewrite !andb_true_iff, !negb_true_iff.
  unfold risk_rule.
  rewrite !Z.leb_gt.
  assert (Hq : forall a b, Qlt_bool a b = false <-> b <= a).
  { intros a b. unfold Qlt_bool. rewrite negb_false_iff. apply Qle_bool_iff. }
  rewrite Hq.
  assert (Hr : forall te ts a b,
             te && ts && Qlt_bool a b = false <->
             (te = true -> ts = true -> b <= a)).
  { intros te ts a b. destruct te, ts; cbn; rewrite ?Hq;
      split; intros H; auto; try discriminate. }
  rewrite Hr. tauto.
Qed.

Lemma record_trades_count self trades :
  daily_trades_count (record_trades self trades)
  = (daily_trades_count self + Z.of_nat (length trades))%Z /\
  length (open_positions (record_trades self trades))
  = (length (open_positions self) + length trades)%nat.
Proof.
  revert self. induction trades as [|d rest IH]; intros self; cbn [record_trades length].
  - split; [lia | lia].
  - destruct (IH (record_trade self d)) as [-> ->]. cbn. rewrite length_app. cbn.
    split; lia.
Qed.

(** X13. Recorded trades count against both limits: once the trades
    recorded on a manager bring its daily count to [max_daily_trades] or
    its open positions to [max_open_positions], every candidate is
    rejected, whatever it holds. *)
Theorem recorded_trades_block
    (self : RiskManager) (trades : list SignalData) (signal_data : SignalData)
    (risk_params : RiskParameters) :
  (max_daily_trades risk_params
   <= daily_trades_count self + Z.of_nat (length trades))%Z \/
  (max_open_positions risk_params
   <= Z.of_nat (length (open_positions self) + length trades))%Z ->
  is_valid (validate_signal (record_trades self trades) signal_data risk_params) = false.
Proof.
  intros H.
  destruct (validate_signal_hard_checks (record_trades self trades) signal_data
              risk_params) as [-> _].
  rewrite hard_checks_valid.
  destruct (record_trades_count self trades) as [-> ->].
  destruct H as [H|H]; apply Z.leb_le in H; rewrite H; cbn;
    rewrite ?andb_false_r; reflexivity.
Qed.

(** The theorem on a fresh manager after five trades, under the default
    parameters (at most five open positions). *)
Lemma recorded_trades_block_witness :
  is_valid (validate_signal (record_trades init (repeat long_candidate 5))
              long_candidate default_risk_parameters) = false.
Proof.
  apply recorded_trades_block. right. cbn. lia.
Defined.

(** X14. Closing a position right after recording it gives back the open
    positions as they were, when none of them was on that ticker; the
    daily count keeps the trade. *)
Theorem record_then_close
    (self : RiskManager) (signal_data : SignalData) (ticker : string) :
  sd_ticker signal_data = Some ticker ->
  Forall (fun p => other_ticker ticker p = true) (open_positions self) ->
  open_positions (close_position (record_trade self signal_data) ticker)
  = open_positions self /\
  daily_trades_count (close_position (record_trade self signal_data) ticker)
  = (daily_trades_count self + 1)%Z.
Proof.
  intros Ht Hall. split; [|reflexivity].
  cbn. rewrite List.filter_app. cbn.
  unfold other_ticker at 2. cbn. rewrite Ht, String.eqb_refl. cbn.
  rewrite app_nil_r.
  induction (open_positions self) as [|p l IH]; [reflexivity|].
  inversion Hall as [|? ? Hp Hl]; subst. cbn. rewrite Hp. f_equal. now apply IH.
Qed.

Lemma record_then_close_witness :
  open_positions (close_position (record_trade init long_candidate) "AAPL") = [].
Proof.
  apply (record_then_close init long_candidate "AAPL" eq_refl).
  constructor.
Defined.

(** X15. [close_position] removes every position on the ticker and only
    those: a position on another ticker, or recorded without ticker,
    stays, in its place; the daily count is untouched; closing twice is
    closing once. *)
Theorem close_position_effect (self : RiskManager) (ticker : string) :
  (forall p, In p (open_positions (close_position self ticker)) <->
             In p (open_positions self) /\ pos_ticker p <> Some ticker) /\
  daily_trades_count (close_position self ticker) = daily_trades_count self /\
  close_position (close_position self ticker) ticker = close_position self ticker.
Proof.
  assert (Hother : forall p, other_ticker ticker p = true <-> pos_ticker p <> Some ticker).
  { intros p. unfold other_ticker. destruct (pos_ticker p) as [t|].
    - rewrite negb_true_iff. split.
      + intros H E. injection E as ->. now rewrite String.eqb_refl in H.
      + intros H. apply String.eqb_neq. congruence.
    - split; [discriminate | reflexivity]. }
  split; [|split; [reflexivity|]].
  - intros p. cbn. rewrite filter_In, Hother. reflexivity.
  - unfold close_position. cbn. f_equal.
    induction (open_positions self) as [|p l IH]; [reflexivity|].
    cbn. destruct (other_ticker ticker p) eqn:E; [|exact IH].
    cbn. rewrite E. now f_equal.
Qed.

End LedgerFacts.

(* ===================================================================== *)
(** * Further properties of the engine                                    *)
(* ===================================================================== *)

Module EngineExtra.
Import Py Signals IAEngine RiskReference EngineReference EngineFacts RiskFacts EngineMore.
Local Open Scope Z_scope.

(** X16. A ticker is watched when the list has an entry for it and either
    the caller names no exchange or the entry has the exchange the caller
    names.  So a ticker listed without exchange is not watched under any
    named exchange. *)
Theorem watched_ticker_iff
    (tickers_to_watch : list (string * option string))
    (ticker : string) (exchange : option string) :
  (_is_watched_ticker tickers_to_watch ticker exchange = true <->
   exists listed,
     In (ticker, listed) tickers_to_watch /\ (exchange = None \/ listed = exchange)) /\
  ((forall listed, In (ticker, listed) tickers_to_watch -> listed = None) ->
   forall x, _is_watched_ticker tickers_to_watch ticker (Some x) = false).
Proof.
  assert (Hsame : forall a x, same_exchange a (Some x) = true <-> a = Some x).
  { intros [a|] x; cbn; [|split; discriminate].
    rewrite String.eqb_eq. split; [now intros -> | now intros [= ->]]. }
  assert (Hiff : _is_watched_ticker tickers_to_watch ticker exchange = true <->
                 exists listed,
                   In (ticker, listed) tickers_to_watch /\
                   (exchange = None \/ listed = exchange)).
  { induction tickers_to_watch as [|[t l] rest IH]; cbn [_is_watched_ticker].
    - split; [discriminate | intros (? & [] & _)].
    - destruct (String.eqb t ticker) eqn:Et.
      + apply String.eqb_eq in Et. subst t.
        destruct exchange as [x|].
        * destruct (same_exchange l (Some x)) eqn:Es.
          -- apply Hsame in Es. subst l. split; [|reflexivity].
             intros _. exists (Some x). split; [now left | now right].
          -- rewrite IH. split.
             ++ intros (l' & Hin & Hl'). exists l'. split; [now right | exact Hl'].
             ++ intros (l' & [Heq|Hin] & Hl'); [|now exists l'].
                injection Heq as ->. destruct Hl' as [Hl'|Hl']; [discriminate|].
                apply Hsame in Hl'. congruence.
        * split; [|reflexivity]. intros _. exists l. split; [now left | now left].
      + apply String.eqb_neq in Et. rewrite IH. split.
        * intros (l' & Hin & Hl'). exists l'. split; [now right | exact Hl'].
        * intros (l' & [Heq|Hin] & Hl'); [congruence | now exists l']. }
  split; [exact Hiff|].
  intros Hnone x.
  destruct (_is_watched_ticker tickers_to_watch ticker (Some x)) eqn:E; [|reflexivity].
  exfalso. clear Hiff.
  revert E. induction tickers_to_watch as [|[t l] rest IH]; cbn [_is_watched_ticker];
    [discriminate|].
  destruct (String.eqb t ticker) eqn:Et.
  - apply String.eqb_eq in Et. subst t.
    rewrite (Hnone l (or_introl eq_refl)). cbn [same_exchange].
    apply IH. intros l' Hin. apply Hnone. now right.
  - apply IH. intros l' Hin. apply Hnone. now right.
Qed.

(** X17. The risk level never decreases when the position size grows,
    everything else in the signal being equal. *)
Theorem risk_level_monotone (d : SignalData) (p1 p2 : Q) :
  (p1 <= p2)%Q ->
  level_rank (_calculate_risk_level (with_position_size (Some p1) d))
  <= level_rank (_calculate_risk_level (with_position_size (Some p2) d)).
Proof.
  intros Hle.
  assert (F : forall c, Qlt_bool c p1 = true -> Qlt_bool c p2 = true).
  { intros c H. apply Qlt_bool_iff. apply Qlt_bool_iff in H.
    eapply Qlt_le_trans; eauto. }
  unfold _calculate_risk_level, with_position_size.
  cbn [sd_position_size_percent sd_risk_reward_ratio sd_technical_indicators get].
  pose proof (F 0.05%Q) as F1. pose proof (F 0.03%Q) as F2.
  destruct (Qlt_bool 0.05 p1); destruct (Qlt_bool 0.05 p2);
    try (specialize (F1 eq_refl); discriminate);
    destruct (Qlt_bool 0.03 p1); destruct (Qlt_bool 0.03 p2);
    try (specialize (F2 eq_refl); discriminate);
    destruct (Qlt_bool (get (sd_risk_reward_ratio d) 0%Q) 1.5);
    destruct (Qlt_bool 3 (get (sd_risk_reward_ratio d) 0%Q));
    destruct (sd_technical_indicators d) as [ti|];
    try destruct (Qlt_bool 0.03 (get (ti_volatility ti) 0%Q));
    vm_compute; discriminate.
Qed.

(** The theorem on the long candidate, from 2 to 8 percent. *)
Lemma risk_level_monotone_witness :
  level_rank (_calculate_risk_level (with_position_size (Some 0.02%Q) long_candidate))
  <= level_rank (_calculate_risk_level (with_position_size (Some 0.08%Q) long_candidate)).
Proof.
  apply risk_level_monotone. vm_compute. discriminate.
Defined.

(** X18. A signal whose risk/reward ratio is below 1.5, or that has no
    such entry (the missing key counts as 0), is never rated LOW; with a
    position size above 5 percent it is rated VERY_HIGH. *)
Theorem risk_level_floor (d : SignalData) :
  (get (sd_risk_reward_ratio d) 0 < 1.5)%Q ->
  _calculate_risk_level d <> LOW /\
  ((0.05 < get (sd_position_size_percent d) 0)%Q ->
   _calculate_risk_level d = VERY_HIGH).
Proof.
  intros Hrr. apply Qlt_bool_iff in Hrr.
  unfold _calculate_risk_level. rewrite Hrr.
  split.
  - destruct (Qlt_bool 0.05 (get (sd_position_size_percent d) 0%Q));
      [|destruct (Qlt_bool 0.03 (get (sd_position_size_percent d) 0%Q))];
      destruct (sd_technical_indicators d) as [ti|];
      try destruct (Qlt_bool 0.03 (get (ti_volatility ti) 0%Q));
      vm_compute; discriminate.
  - intros Hp. apply Qlt_bool_iff in Hp. rewrite Hp.
    destruct (sd_technical_indicators d) as [ti|];
      try destruct (Qlt_bool 0.03 (get (ti_volatility ti) 0%Q));
      reflexivity.
Qed.

(** The theorem on the short candidate, which has no risk/reward entry. *)
Lemma risk_level_floor_witness : _calculate_risk_level short_candidate <> LOW.
Proof.
  apply (risk_level_floor short_candidate). reflexivity.
Defined.

Lemma cache_signal_lookup_raw now current_time self key k v :
  signal_cache (_cache_signal now current_time self key) !! k = Some v <->
  (<[key := now]> (signal_cache self)) !! k = Some v /\
  current_time - v <= timedelta_seconds (cache_ttl self).
Proof.
  unfold _cache_signal. cbn [signal_cache].
  rewrite map_lookup_filter_Some. cbn. split; intros [H1 H2]; (split; [exact H1|lia]).
Qed.

(** X19. After [_cache_signal] the cache holds exactly the entries that
    are at most the time to live old at the purge: the key just written
    with its new instant, and the other keys with the instants they had.
    Older entries are gone. *)
Theorem cache_signal_lookup
    (now current_time : Z) (self : Engine) (key k : string) (v : Z) :
  signal_cache (_cache_signal now current_time self key) !! k = Some v <->
  current_time - v <= timedelta_seconds (cache_ttl self) /\
  (k = key /\ v = now \/ k <> key /\ signal_cache self !! k = Some v).
Proof.
  rewrite cache_signal_lookup_raw.
  destruct (decide (key = k)) as [->|Hne].
  - rewrite lookup_insert_eq. split.
    + intros [[= ->] H]. split; [exact H|]. now left.
    + intros [H [[_ ->]|[Hn _]]]; [now split | congruence].
  - rewrite lookup_insert_ne by exact Hne. split.
    + intros [H1 H2]. split; [exact H2|]. right. split; [congruence|exact H1].
    + intros [H [[-> _]|[_ H1]]]; [congruence | now split].
Qed.

(** Caching one key never makes another key cached. *)
Lemma is_cached_other now current_time self key k t :
  k <> key ->
  _is_signal_cached t self k = false ->
  _is_signal_cached t (_cache_signal now current_time self key) k = false.
Proof.
  intros Hne Hbefore. unfold _is_signal_cached in *.
  destruct (signal_cache (_cache_signal now current_time self key) !! k) as [v|] eqn:E;
    [|reflexivity].
  apply cache_signal_lookup_raw in E as [E _].
  rewrite lookup_insert_ne in E by congruence.
  now rewrite E in Hbefore.
Qed.

(** X20. The purge cannot be observed: for any check made at or after the
    purge instant, a key other than the one just written is cached after
    [_cache_signal] exactly if it was cached before. *)
Theorem cache_signal_other_keys
    (now current_time t : Z) (self : Engine) (key k : string) :
  k <> key ->
  current_time <= t ->
  _is_signal_cached t (_cache_signal now current_time self key) k
  = _is_signal_cached t self k.
Proof.
  intros Hne Ht.
  destruct (_is_signal_cached t self k) eqn:Hbefore;
    [|now apply is_cached_other].
  unfold _is_signal_cached in *.
  destruct (signal_cache self !! k) as [v|] eqn:E; [|discriminate].
  apply bool_decide_eq_true in Hbefore.
  assert (Hafter : signal_cache (_cache_signal now current_time self key) !! k = Some v).
  { apply cache_signal_lookup_raw. rewrite lookup_insert_ne by congruence.
    split; [exact E|]. cbn [cache_ttl] in *. lia. }
  rewrite Hafter. apply bool_decide_eq_true. exact Hbefore.
Qed.

(** An engine that cached ["AAPL:None:SELL"] at the start. *)
Definition warm_engine : Engine :=
  _cache_signal 0 0 init (make_cache_key "AAPL" None "SELL").

(** The theorem on the warm engine: caching the BUY key at 10 s leaves the
    SELL key cached at 20 s. *)
Lemma cache_signal_other_keys_witness :
  _is_signal_cached (timedelta_seconds 20)
    (_cache_signal (timedelta_seconds 10) (timedelta_seconds 10) warm_engine
       (make_cache_key "AAPL" None "BUY"))
    (make_cache_key "AAPL" None "SELL") = true.
Proof.
  rewrite (cache_signal_other_keys (timedelta_seconds 10) (timedelta_seconds 10)
             (timedelta_seconds 20) warm_engine
             (make_cache_key "AAPL" None "BUY") (make_cache_key "AAPL" None "SELL"));
    [vm_compute; reflexivity | vm_compute; discriminate | vm_compute; discriminate].
Defined.

Lemma confidence_not_declared : str_in "confidence" Signal_columns = false.
Proof. reflexivity. Qed.

Lemma Signal_init_undeclared (kwargs : list string) (k : string) :
  In k kwargs -> str_in k Signal_columns = false ->
  Signal_init kwargs = Raise TypeError.
Proof.
  intros Hin Hk. unfold Signal_init.
  destruct (forallb _ kwargs) eqn:E; [|reflexivity].
  rewrite forallb_forall in E. specialize (E k Hin). congruence.
Qed.

(** X21. [_save_signal] stores nothing: it calls the constructor of
    [Signal] with the keyword [confidence], which the class does not
    declare (its attribute is [confidence_score]), so the constructor
    raises and the handler returns [None], for every signal dictionary. *)
Theorem save_signal_never_stores (signal_data : SignalData) :
  _save_signal signal_data = None /\
  In "confidence"%string save_kwargs /\
  str_in "confidence" Signal_columns = false /\
  str_in "confidence_score" Signal_columns = true /\
  (forall kwargs : list string,
      In "confidence"%string kwargs -> Signal_init kwargs = Raise TypeError).
Proof.
  assert (Hin : In "confidence"%string save_kwargs) by (cbn; tauto).
  assert (Hraise : forall kwargs : list string,
             In "confidence"%string kwargs -> Signal_init kwargs = Raise TypeError).
  { intros kwargs H. exact (Signal_init_undeclared kwargs _ H confidence_not_declared). }
  split; [|repeat split; auto].
  unfold _save_signal. rewrite (Hraise save_kwargs Hin).
  destruct (sd_ticker signal_data), (sd_signal_type signal_data),
    (sd_entry_price signal_data), (sd_stop_loss signal_data),
    (sd_take_profit signal_data), (sd_risk_reward_ratio signal_data); reflexivity.
Qed.

(** X22. [_publish_signal] publishes nothing: building the message reads
    [signal.created_at], which [Signal] does not declare (its attribute is
    [timestamp]); the [AttributeError] is caught and logged before
    [message_queue.publish] is reached, so the engine and its outbound
    messages are as before, for every stored signal. *)
Theorem publish_signal_never_publishes (signal : SignalData) (self : Engine) :
  _publish_signal signal self = self /\
  published (_publish_signal signal self) = published self /\
  In "created_at"%string publish_reads /\
  Signal_getattr "created_at" = Raise AttributeError /\
  Signal_getattr "timestamp" = Ok tt.
Proof.
  assert (H : _publish_signal signal self = self) by reflexivity.
  rewrite H. repeat split; try reflexivity. cbn. tauto.
Qed.

(** X23. Writing a key and asking for it: when the purge of
    [_cache_signal] runs within the time to live of the instant it stored,
    the key is reported cached exactly as long as less than the time to
    live has passed since that instant (at exactly the time to live it is
    free again); when the purge runs later than that, the entry just
    written is purged with the others and the key is not cached at all. *)
Theorem cache_round_trip
    (now current_time t : Z) (self : Engine) (key : string) :
  (current_time - now <= timedelta_seconds (cache_ttl self) ->
   (_is_signal_cached t (_cache_signal now current_time self key) key = true <->
    t - now < timedelta_seconds (cache_ttl self))) /\
  (timedelta_seconds (cache_ttl self) < current_time - now ->
   _is_signal_cached t (_cache_signal now current_time self key) key = false).
Proof.
  split.
  - intros Hfresh. rewrite (is_cached_after_cache now current_time self key t Hfresh).
    apply bool_decide_eq_true.
  - intros Hlate. unfold _is_signal_cached.
    destruct (signal_cache (_cache_signal now current_time self key) !! key)
      as [v|] eqn:E; [|reflexivity].
    apply cache_signal_lookup_raw in E as [E Hv].
    rewrite lookup_insert_eq in E. injection E as <-. cbn [cache_ttl] in *. lia.
Qed.

End EngineExtra.
